(** * Map controller (static/js/map.js): a shallow embedding

    The script keeps eight module-level variables, wires DOM controls to the
    mapping provider and reacts to provider notifications.  The embedding
    follows the script line by line: module variables, the document and the
    provider objects the script creates live in one [World]; every function
    of the script is a computation in a state-and-exception monad over that
    world; anonymous listener functions are named constructors of [Handler]
    and are interpreted by [run_handler]. *)

From Stdlib Require Import QArith.
From stdpp Require Import gmap strings list fin_maps.

Local Open Scope string_scope.
Local Open Scope list_scope.

(** ** Data *)

(** A DOM node is identified by its [id] attribute; [Element] is the part of
    its state the script reads ([this.value], [this.checked]). *)
Definition Node := string.

Record Element := mkElement { value : string; checked : bool }.

(** Provider objects are identified by the order of their creation. *)
Definition ObjId := nat.

Record LatLng := mkLatLng { lat : Q; lng : Q }.

(** [google.maps.Map]: the container it was built on and the options the
    script passes or later sets.  [mapTypeId] is [None] until the script
    sets it (the provider then shows its default type). *)
Record MapView := mkMapView {
  mv_id : ObjId;
  mapDiv : option Node;
  zoom : Z;
  center : LatLng;
  mapTypeId : option string;
  mapTypeControl : bool;
  streetViewControl : bool;
  fullscreenControl : bool;
  zoomControl : bool
}.

(** The provider's directions result is opaque to the script. *)
Inductive DirectionsResult := ProviderRoute (n : nat).

Record DirectionsService := mkDirectionsService { ds_id : ObjId }.

Record DirectionsRenderer := mkDirectionsRenderer {
  dr_id : ObjId;
  draggable : bool;
  panel : option Node;
  dr_map : option ObjId;
  directions : option DirectionsResult
}.

Record PlacesService := mkPlacesService { ps_id : ObjId; ps_map : option ObjId }.

Record Geometry := mkGeometry { location : LatLng }.

Record Place := mkPlace { name : option string; geometry : option Geometry }.

Record Autocomplete := mkAutocomplete {
  ac_id : ObjId;
  ac_input : option Node;
  ac_bindings : list (string * option ObjId);
  ac_place : option Place
}.

(** A marker: coordinate, display label and role tag. *)
Record Marker := mkMarker {
  position : LatLng;
  title : option string;
  role : string
}.

Record MapMouseEvent := mkMapMouseEvent {
  placeId : option string;
  latLng : LatLng
}.

(** Listener functions.  The first four are the named functions handed to
    [addEventListener]; the others are the anonymous functions of the
    script, [traffic_change] closing over the layer created next to it. *)
Inductive Handler :=
| performSearch_handler
| calculateDirections_handler
| clearMap_handler
| getCurrentLocation_handler
| mapType_change
| traffic_change (trafficLayer : ObjId)
| start_place_changed
| end_place_changed
| directions_changed
| map_click.

Inductive Target := OnNode (n : Node) | OnObject (o : ObjId).

Record Listener := mkListener {
  l_target : Target;
  l_event : string;
  l_handler : Handler
}.

(** Calls whose effect lies outside the script: requests to the browser and
    to the provider, and text written to the page. *)
Inductive Call :=
| event_stop
| placeDetails_request (place_id : string) (at_ : LatLng)
| geolocation_request
| textSearch_request
| route_request
| routeInfo_update (d : option DirectionsResult).

Inductive Error :=
| TypeError (what : string)
| ProviderError (what : string).

(** ** The world: module variables (lines 1-8) and their environment *)

Record World := mkWorld {
  map : option MapView;
  directionsService : option DirectionsService;
  directionsRenderer : option DirectionsRenderer;
  placesService : option PlacesService;
  autocompleteStart : option Autocomplete;
  autocompleteEnd : option Autocomplete;
  markers : list Marker;
  currentLocationMarker : option Marker;
  document : gmap string Element;
  trafficLayers : gmap ObjId (option ObjId);
  listeners : list Listener;
  next_obj : ObjId;
  calls : list Call
}.

(** The state the script starts in when the page has loaded. *)
Definition initial_world (doc : gmap string Element) : World :=
  {| map := None; directionsService := None; directionsRenderer := None;
     placesService := None; autocompleteStart := None; autocompleteEnd := None;
     markers := []; currentLocationMarker := None;
     document := doc; trafficLayers := ∅; listeners := []; next_obj := 0;
     calls := [] |}.

Definition set_map (v : option MapView) (w : World) : World :=
  {| map := v; directionsService := directionsService w;
     directionsRenderer := directionsRenderer w; placesService := placesService w;
     autocompleteStart := autocompleteStart w; autocompleteEnd := autocompleteEnd w;
     markers := markers w; currentLocationMarker := currentLocationMarker w;
     document := document w; trafficLayers := trafficLayers w;
     listeners := listeners w; next_obj := next_obj w; calls := calls w |}.

Definition set_directionsService (v : option DirectionsService) (w : World) : World :=
  {| map := map w; directionsService := v;
     directionsRenderer := directionsRenderer w; placesService := placesService w;
     autocompleteStart := autocompleteStart w; autocompleteEnd := autocompleteEnd w;
     markers := markers w; currentLocationMarker := currentLocationMarker w;
     document := document w; trafficLayers := trafficLayers w;
     listeners := listeners w; next_obj := next_obj w; calls := calls w |}.

Definition set_directionsRenderer (v : option DirectionsRenderer) (w : World) : World :=
  {| map := map w; directionsService := directionsService w;
     directionsRenderer := v; placesService := placesService w;
     autocompleteStart := autocompleteStart w; autocompleteEnd := autocompleteEnd w;
     markers := markers w; currentLocationMarker := currentLocationMarker w;
     document := document w; trafficLayers := trafficLayers w;
     listeners := listeners w; next_obj := next_obj w; calls := calls w |}.

Definition set_placesService (v : option PlacesService) (w : World) : World :=
  {| map := map w; directionsService := directionsService w;
     directionsRenderer := directionsRenderer w; placesService := v;
     autocompleteStart := autocompleteStart w; autocompleteEnd := autocompleteEnd w;
     markers := markers w; currentLocationMarker := currentLocationMarker w;
     document := document w; trafficLayers := trafficLayers w;
     listeners := listeners w; next_obj := next_obj w; calls := calls w |}.

Definition set_autocompleteStart (v : option Autocomplete) (w : World) : World :=
  {| map := map w; directionsService := directionsService w;
     directionsRenderer := directionsRenderer w; placesService := placesService w;
     autocompleteStart := v; autocompleteEnd := autocompleteEnd w;
     markers := markers w; currentLocationMarker := currentLocationMarker w;
     document := document w; trafficLayers := trafficLayers w;
     listeners := listeners w; next_obj := next_obj w; calls := calls w |}.

Definition set_autocompleteEnd (v : option Autocomplete) (w : World) : World :=
  {| map := map w; directionsService := directionsService w;
     directionsRenderer := directionsRenderer w; placesService := placesService w;
     autocompleteStart := autocompleteStart w; autocompleteEnd := v;
     markers := markers w; currentLocationMarker := currentLocationMarker w;
     document := document w; trafficLayers := trafficLayers w;
     listeners := listeners w; next_obj := next_obj w; calls := calls w |}.

Definition set_markers (v : list Marker) (w : World) : World :=
  {| map := map w; directionsService := directionsService w;
     directionsRenderer := directionsRenderer w; placesService := placesService w;
     autocompleteStart := autocompleteStart w; autocompleteEnd := autocompleteEnd w;
     markers := v; currentLocationMarker := currentLocationMarker w;
     document := document w; trafficLayers := trafficLayers w;
     listeners := listeners w; next_obj := next_obj w; calls := calls w |}.

Definition set_trafficLayers (v : gmap ObjId (option ObjId)) (w : World) : World :=
  {| map := map w; directionsService := directionsService w;
     directionsRenderer := directionsRenderer w; placesService := placesService w;
     autocompleteStart := autocompleteStart w; autocompleteEnd := autocompleteEnd w;
     markers := markers w; currentLocationMarker := currentLocationMarker w;
     document := document w; trafficLayers := v;
     listeners := listeners w; next_obj := next_obj w; calls := calls w |}.

Definition set_listeners (v : list Listener) (w : World) : World :=
  {| map := map w; directionsService := directionsService w;
     directionsRenderer := directionsRenderer w; placesService := placesService w;
     autocompleteStart := autocompleteStart w; autocompleteEnd := autocompleteEnd w;
     markers := markers w; currentLocationMarker := currentLocationMarker w;
     document := document w; trafficLayers := trafficLayers w;
     listeners := v; next_obj := next_obj w; calls := calls w |}.

Definition set_next_obj (v : ObjId) (w : World) : World :=
  {| map := map w; directionsService := directionsService w;
     directionsRenderer := directionsRenderer w; placesService := placesService w;
     autocompleteStart := autocompleteStart w; autocompleteEnd := autocompleteEnd w;
     markers := markers w; currentLocationMarker := currentLocationMarker w;
     document := document w; trafficLayers := trafficLayers w;
     listeners := listeners w; next_obj := v; calls := calls w |}.

Definition set_calls (v : list Call) (w : World) : World :=
  {| map := map w; directionsService := directionsService w;
     directionsRenderer := directionsRenderer w; placesService := placesService w;
     autocompleteStart := autocompleteStart w; autocompleteEnd := autocompleteEnd w;
     markers := markers w; currentLocationMarker := currentLocationMarker w;
     document := document w; trafficLayers := trafficLayers w;
     listeners := listeners w; next_obj := next_obj w; calls := v |}.

(** ** Computations: state and exceptions *)

Inductive outcome (A : Type) := Ok (a : A) | Throw (e : Error).
Arguments Ok {A} a.
Arguments Throw {A} e.

Definition M (A : Type) : Type := World -> outcome A * World.

Definition ret {A} (a : A) : M A := fun w => (Ok a, w).

Definition bind {A B} (m : M A) (k : A -> M B) : M B :=
  fun w => match m w with
           | (Ok a, w') => k a w'
           | (Throw e, w') => (Throw e, w')
           end.

Definition throw {A} (e : Error) : M A := fun w => (Throw e, w).

Definition gets {A} (f : World -> A) : M A := fun w => (Ok (f w), w).

Definition modify (f : World -> World) : M unit := fun w => (Ok tt, f w).

Notation "x <- c1 ;; c2" := (bind c1 (fun x => c2))
  (at level 100, c1 at next level, right associativity).
Notation "c1 ;; c2" := (bind c1 (fun _ => c2))
  (at level 100, right associativity).

(** A fresh identity for an object made with [new]. *)
Definition fresh : M ObjId :=
  fun w => (Ok (next_obj w), set_next_obj (S (next_obj w)) w).

Definition record_call (c : Call) : M unit :=
  modify (fun w => set_calls (calls w ++ [c]) w).

(** ** Browser and provider primitives *)

(** [document.getElementById]: the node, or [null]. *)
Definition node_of (doc : gmap string Element) (id : string) : option Node :=
  match doc !! id with
  | Some _ => Some id
  | None => None
  end.

Definition getElementById (id : string) : M (option Node) :=
  gets (fun w => node_of (document w) id).

(** Truth value of an object reference ([null] and [undefined] are false)
    and of a string (the empty string is false as well). *)
Definition truthy {A} (v : option A) : bool :=
  match v with Some _ => true | None => false end.

Definition truthy_string (v : option string) : bool :=
  match v with
  | Some EmptyString => false
  | Some (String _ _) => true
  | None => false
  end.

(** Whether two listener functions are the same callback.  The four named
    functions are the same function each time they are handed over (lines
    80, 86, 92, 98); a function expression makes a new function object each
    time it is evaluated, so an anonymous listener is never the callback of
    an earlier registration. *)
Definition same_callback (h1 h2 : Handler) : bool :=
  match h1, h2 with
  | performSearch_handler, performSearch_handler => true
  | calculateDirections_handler, calculateDirections_handler => true
  | clearMap_handler, clearMap_handler => true
  | getCurrentLocation_handler, getCurrentLocation_handler => true
  | _, _ => false
  end.

(** Whether node [n] already has a listener of type [ev] with callback [h]. *)
Definition already_registered (n : Node) (ev : string) (h : Handler)
    (ls : list Listener) : bool :=
  existsb (fun l => match l_target l with
                    | OnNode m => String.eqb m n
                    | OnObject _ => false
                    end
                    && String.eqb (l_event l) ev
                    && same_callback (l_handler l) h) ls.

(** The DOM does not register a listener twice: a registration with the
    type and the callback of one already on the node is discarded. *)
Definition add_listener (n : Node) (ev : string) (h : Handler)
    (ls : list Listener) : list Listener :=
  if already_registered n ev h ls then ls
  else ls ++ [mkListener (OnNode n) ev h].

(** [el.addEventListener(ev, h)]; a call on [null] is a TypeError. *)
Definition addEventListener (el : option Node) (ev : string) (h : Handler) : M unit :=
  match el with
  | None => throw (TypeError "addEventListener of null")
  | Some n => modify (fun w => set_listeners (add_listener n ev h (listeners w)) w)
  end.

Record MapOptions := mkMapOptions {
  o_zoom : Z;
  o_center : LatLng;
  o_mapTypeControl : bool;
  o_streetViewControl : bool;
  o_fullscreenControl : bool;
  o_zoomControl : bool
}.

(** [new google.maps.Map(mapDiv, options)].  The constructor belongs to the
    provider's library, not to the script, so whether it builds a view on
    [mapDiv] is a parameter, [mapDivOk]; the library documents that it
    refuses [null]. *)
Definition new_Map (mapDivOk : option Node -> bool) (div : option Node)
    (o : MapOptions) : M MapView :=
  if mapDivOk div then
    id <- fresh;;
    ret {| mv_id := id; mapDiv := div; zoom := o_zoom o; center := o_center o;
           mapTypeId := None;
           mapTypeControl := o_mapTypeControl o;
           streetViewControl := o_streetViewControl o;
           fullscreenControl := o_fullscreenControl o;
           zoomControl := o_zoomControl o |}
  else throw (ProviderError "Map: mapDiv").

Definition new_DirectionsService : M DirectionsService :=
  id <- fresh;; ret (mkDirectionsService id).

Definition new_DirectionsRenderer (drag : bool) (p : option Node) : M DirectionsRenderer :=
  id <- fresh;;
  ret {| dr_id := id; draggable := drag; panel := p; dr_map := None; directions := None |}.

Definition new_PlacesService (m : option MapView) : M PlacesService :=
  id <- fresh;; ret (mkPlacesService id (mv_id <$> m)).

Definition new_Autocomplete (input : option Node) : M Autocomplete :=
  id <- fresh;;
  ret {| ac_id := id; ac_input := input; ac_bindings := []; ac_place := None |}.

Definition new_TrafficLayer : M ObjId :=
  id <- fresh;;
  modify (fun w => set_trafficLayers (<[id := None]> (trafficLayers w)) w);;
  ret id.

Definition trafficLayer_setMap (layer : ObjId) (m : option MapView) : M unit :=
  modify (fun w => set_trafficLayers (<[layer := mv_id <$> m]> (trafficLayers w)) w).

(** Method calls on the module variable [map]; [undefined.f()] is a TypeError. *)
Definition with_center (loc : LatLng) (mv : MapView) : MapView :=
  {| mv_id := mv_id mv; mapDiv := mapDiv mv; zoom := zoom mv; center := loc;
     mapTypeId := mapTypeId mv; mapTypeControl := mapTypeControl mv;
     streetViewControl := streetViewControl mv;
     fullscreenControl := fullscreenControl mv;
     zoomControl := zoomControl mv |}.

Definition with_mapTypeId (v : string) (mv : MapView) : MapView :=
  {| mv_id := mv_id mv; mapDiv := mapDiv mv; zoom := zoom mv; center := center mv;
     mapTypeId := Some v; mapTypeControl := mapTypeControl mv;
     streetViewControl := streetViewControl mv;
     fullscreenControl := fullscreenControl mv;
     zoomControl := zoomControl mv |}.

Definition map_panTo (loc : LatLng) : M unit :=
  m <- gets map;;
  match m with
  | None => throw (TypeError "map is undefined")
  | Some mv => modify (set_map (Some (with_center loc mv)))
  end.

Definition map_setMapTypeId (v : string) : M unit :=
  m <- gets map;;
  match m with
  | None => throw (TypeError "map is undefined")
  | Some mv => modify (set_map (Some (with_mapTypeId v mv)))
  end.

Definition map_addListener (ev : string) (h : Handler) : M unit :=
  m <- gets map;;
  match m with
  | None => throw (TypeError "map is undefined")
  | Some mv =>
      modify (fun w => set_listeners (listeners w ++ [mkListener (OnObject (mv_id mv)) ev h]) w)
  end.

(** Method calls on the module variable [directionsRenderer]. *)
Definition with_directions (d : option DirectionsResult) (r : DirectionsRenderer)
  : DirectionsRenderer :=
  {| dr_id := dr_id r; draggable := draggable r; panel := panel r;
     dr_map := dr_map r; directions := d |}.

Definition directionsRenderer_setMap (m : option MapView) : M unit :=
  r <- gets directionsRenderer;;
  match r with
  | None => throw (TypeError "directionsRenderer is undefined")
  | Some r =>
      modify (set_directionsRenderer (Some
        {| dr_id := dr_id r; draggable := draggable r; panel := panel r;
           dr_map := mv_id <$> m; directions := directions r |}))
  end.

Definition directionsRenderer_addListener (ev : string) (h : Handler) : M unit :=
  r <- gets directionsRenderer;;
  match r with
  | None => throw (TypeError "directionsRenderer is undefined")
  | Some r =>
      modify (fun w => set_listeners (listeners w ++ [mkListener (OnObject (dr_id r)) ev h]) w)
  end.

Definition directionsRenderer_getDirections : M (option DirectionsResult) :=
  r <- gets directionsRenderer;;
  match r with
  | None => throw (TypeError "directionsRenderer is undefined")
  | Some r => ret (directions r)
  end.

(** Method calls on [autocompleteStart] and [autocompleteEnd]. *)
Inductive Which := Start | End_.

Definition autocomplete_var (k : Which) : World -> option Autocomplete :=
  match k with Start => autocompleteStart | End_ => autocompleteEnd end.

Definition set_autocomplete_var (k : Which) : option Autocomplete -> World -> World :=
  match k with Start => set_autocompleteStart | End_ => set_autocompleteEnd end.

(** [bindTo(key, target)] reads from its target: with [undefined] for a
    target the call is a TypeError and binds nothing. *)
Definition autocomplete_bindTo (k : Which) (key : string) (m : option MapView) : M unit :=
  a <- gets (autocomplete_var k);;
  match a with
  | None => throw (TypeError "autocomplete is undefined")
  | Some a =>
      match m with
      | None => throw (TypeError "bindTo: target is undefined")
      | Some mv =>
          modify (set_autocomplete_var k (Some
            {| ac_id := ac_id a; ac_input := ac_input a;
               ac_bindings := ac_bindings a ++ [(key, Some (mv_id mv))];
               ac_place := ac_place a |}))
      end
  end.

Definition autocomplete_addListener (k : Which) (ev : string) (h : Handler) : M unit :=
  a <- gets (autocomplete_var k);;
  match a with
  | None => throw (TypeError "autocomplete is undefined")
  | Some a =>
      modify (fun w => set_listeners (listeners w ++ [mkListener (OnObject (ac_id a)) ev h]) w)
  end.

Definition autocomplete_getPlace (k : Which) : M (option Place) :=
  a <- gets (autocomplete_var k);;
  match a with
  | None => throw (TypeError "autocomplete is undefined")
  | Some a => ret (ac_place a)
  end.

(** [place.geometry]: reading a property of [undefined] is a TypeError. *)
Definition place_geometry (p : option Place) : M (option Geometry) :=
  match p with
  | None => throw (TypeError "place is undefined")
  | Some p => ret (geometry p)
  end.

Definition place_name (p : option Place) : M (option string) :=
  match p with
  | None => throw (TypeError "place is undefined")
  | Some p => ret (name p)
  end.

(** ** Functions the script calls but whose bodies lie beyond the part of
    the file at hand *)

(** Modelled from the spec: [addMarker(location, title, type)] is called at
    lines 59 and 70 and its body is missing; the spec has a marker appended
    to the ordered marker sequence, tagged with its role. *)
Definition addMarker (loc : LatLng) (label : option string) (tag : string) : M unit :=
  modify (fun w => set_markers (markers w ++ [mkMarker loc label tag]) w).

(** Modelled from the spec: [clearMap] is registered at line 92 and its body
    is missing; the spec has it remove all markers from the sequence and
    clear the current route/render state. *)
Definition clearMap : M unit :=
  modify (fun w =>
    set_directionsRenderer (with_directions None <$> directionsRenderer w)
      (set_markers [] w)).

(** Modelled from the spec: [getCurrentLocation] is called at line 36 and
    registered at line 98, its body is missing; the spec has it request the
    browser's geolocation capability asynchronously. *)
Definition getCurrentLocation : M unit := record_call geolocation_request.

(** Modelled from the spec: [performSearch] is registered at line 80 and its
    body is missing; the spec has it query the provider's text search, the
    results arriving later. *)
Definition performSearch : M unit := record_call textSearch_request.

(** Modelled from the spec: [calculateDirections] is registered at line 86
    and its body is missing; the spec has it issue a route request to the
    directions service, the route arriving later. *)
Definition calculateDirections : M unit := record_call route_request.

(** Modelled from the spec: [updateRouteInfo(directions)] is called at line
    44 and its body is missing; the spec has it refresh the textual route
    summary. *)
Definition updateRouteInfo (d : option DirectionsResult) : M unit :=
  record_call (routeInfo_update d).

(** Modelled from the spec: [getPlaceDetails(placeId, latLng)] is called at
    line 126 and its body is missing; the spec has it fetch the place
    details for that identifier and coordinate. *)
Definition getPlaceDetails (pid : option string) (ll : LatLng) : M unit :=
  match pid with
  | Some p => record_call (placeDetails_request p ll)
  | None => ret tt
  end.

(** ** The anonymous listener functions *)

(** Lines 55-61. *)
Definition on_start_place_changed : M unit :=
  place <- autocomplete_getPlace Start;;
  g <- place_geometry place;;
  match g with
  | Some g =>
      map_panTo (location g);;
      n <- place_name place;;
      addMarker (location g) n "start"
  | None => ret tt
  end.

(** Lines 67-72. *)
Definition on_end_place_changed : M unit :=
  place <- autocomplete_getPlace End_;;
  g <- place_geometry place;;
  match g with
  | Some g =>
      n <- place_name place;;
      addMarker (location g) n "end"
  | None => ret tt
  end.

(** Lines 104-106. *)
Definition on_mapType_change (this : Element) : M unit :=
  map_setMapTypeId (value this).

(** Lines 113-119. *)
Definition on_traffic_change (trafficLayer : ObjId) (this : Element) : M unit :=
  if checked this then
    m <- gets map;; trafficLayer_setMap trafficLayer m
  else
    trafficLayer_setMap trafficLayer None.

(** Lines 42-45. *)
Definition on_directions_changed : M unit :=
  d <- directionsRenderer_getDirections;;
  updateRouteInfo d.

(** Lines 123-126; the file ends inside the body of the [if]. *)
Definition on_map_click (event : MapMouseEvent) : M unit :=
  if truthy_string (placeId event) then
    record_call event_stop;;
    getPlaceDetails (placeId event) (latLng event)
  else ret tt.

(** What a listener is called with. *)
Inductive EventArg :=
| DomEvent (this : Element)
| MapClick (event : MapMouseEvent)
| Notification.

(** Each listener is registered on one kind of target only; a listener
    called with another kind of argument is not a case of the script. *)
Definition run_handler (h : Handler) (arg : EventArg) : M unit :=
  match h, arg with
  | performSearch_handler, _ => performSearch
  | calculateDirections_handler, _ => calculateDirections
  | clearMap_handler, _ => clearMap
  | getCurrentLocation_handler, _ => getCurrentLocation
  | mapType_change, DomEvent this => on_mapType_change this
  | traffic_change layer, DomEvent this => on_traffic_change layer this
  | start_place_changed, _ => on_start_place_changed
  | end_place_changed, _ => on_end_place_changed
  | directions_changed, _ => on_directions_changed
  | map_click, MapClick event => on_map_click event
  | _, _ => ret tt
  end.

(** ** The script's functions *)

(** Lines 48-74. *)
Definition setupAutocomplete : M unit :=
  startInput <- getElementById "start-location";;
  endInput <- getElementById "end-location";;
  (if truthy startInput then
     a <- new_Autocomplete startInput;;
     modify (set_autocompleteStart (Some a));;
     m <- gets map;;
     autocomplete_bindTo Start "bounds" m;;
     autocomplete_addListener Start "place_changed" start_place_changed
   else ret tt);;
  (if truthy endInput then
     a <- new_Autocomplete endInput;;
     modify (set_autocompleteEnd (Some a));;
     m <- gets map;;
     autocomplete_bindTo End_ "bounds" m;;
     autocomplete_addListener End_ "place_changed" end_place_changed
   else ret tt).

(** Lines 76-126. *)
Definition setupEventListeners : M unit :=
  searchBtn <- getElementById "search-btn";;
  (if truthy searchBtn
   then addEventListener searchBtn "click" performSearch_handler
   else ret tt);;
  directionsBtn <- getElementById "directions-btn";;
  (if truthy directionsBtn
   then addEventListener directionsBtn "click" calculateDirections_handler
   else ret tt);;
  clearBtn <- getElementById "clear-btn";;
  (if truthy clearBtn
   then addEventListener clearBtn "click" clearMap_handler
   else ret tt);;
  myLocationBtn <- getElementById "my-location-btn";;
  (if truthy myLocationBtn
   then addEventListener myLocationBtn "click" getCurrentLocation_handler
   else ret tt);;
  mapTypeSelect <- getElementById "map-type";;
  (if truthy mapTypeSelect
   then addEventListener mapTypeSelect "change" mapType_change
   else ret tt);;
  trafficToggle <- getElementById "traffic-toggle";;
  (if truthy trafficToggle then
     trafficLayer <- new_TrafficLayer;;
     addEventListener trafficToggle "change" (traffic_change trafficLayer)
   else ret tt);;
  map_addListener "click" map_click.

(** The options literal of lines 13-18. *)
Definition san_francisco : LatLng := {| lat := 37.7749; lng := -122.4194 |}.

Definition initMap_options : MapOptions :=
  {| o_zoom := 13; o_center := san_francisco;
     o_mapTypeControl := true; o_streetViewControl := true;
     o_fullscreenControl := true; o_zoomControl := true |}.

(** Lines 10-46. *)
Definition initMap (mapDivOk : option Node -> bool) : M unit :=
  mapEl <- getElementById "map";;
  m <- new_Map mapDivOk mapEl initMap_options;;
  modify (set_map (Some m));;
  ds <- new_DirectionsService;;
  modify (set_directionsService (Some ds));;
  panelEl <- getElementById "directions-panel";;
  dr <- new_DirectionsRenderer true panelEl;;
  modify (set_directionsRenderer (Some dr));;
  m <- gets map;;
  directionsRenderer_setMap m;;
  m <- gets map;;
  ps <- new_PlacesService m;;
  modify (set_placesService (Some ps));;
  setupAutocomplete;;
  getCurrentLocation;;
  setupEventListeners;;
  directionsRenderer_addListener "directions_changed" directions_changed.

(** ** What happens after initialization *)

Definition rendered_route (w : World) : option DirectionsResult :=
  directionsRenderer w ≫= directions.

Definition with_place (p : Place) (a : Autocomplete) : Autocomplete :=
  {| ac_id := ac_id a; ac_input := ac_input a; ac_bindings := ac_bindings a;
     ac_place := Some p |}.

(** The page once [initMap] has run on a freshly loaded document. *)
Definition initialized (mapDivOk : option Node -> bool) (doc : gmap string Element) : World :=
  snd (initMap mapDivOk (initial_world doc)).

(** ** Closed form of initialization *)

Definition guarded_listener (doc : gmap string Element) (n : Node) (ev : string)
    (h : Handler) : list Listener :=
  if truthy (node_of doc n) then [mkListener (OnNode n) ev h] else [].

Definition bump (b : bool) (n : ObjId) : ObjId := if b then S n else n.

(** The world [initMap] leaves behind when the provider builds the view. *)
Definition after_initMap (w : World) : World :=
  let doc := document w in
  let n := next_obj w in
  let s := truthy (node_of doc "start-location") in
  let e := truthy (node_of doc "end-location") in
  let t := truthy (node_of doc "traffic-toggle") in
  let start_id := 4 + n in
  let end_id := bump s start_id in
  let layer_id := bump e end_id in
  {| map := Some {| mv_id := n; mapDiv := node_of doc "map"; zoom := 13;
                    center := san_francisco; mapTypeId := None;
                    mapTypeControl := true; streetViewControl := true;
                    fullscreenControl := true; zoomControl := true |};
     directionsService := Some (mkDirectionsService (1 + n));
     directionsRenderer :=
       Some {| dr_id := 2 + n; draggable := true;
               panel := node_of doc "directions-panel";
               dr_map := Some n; directions := None |};
     placesService := Some (mkPlacesService (3 + n) (Some n));
     autocompleteStart :=
       if s then Some {| ac_id := start_id; ac_input := Some "start-location";
                         ac_bindings := [("bounds", Some n)]; ac_place := None |}
       else autocompleteStart w;
     autocompleteEnd :=
       if e then Some {| ac_id := end_id; ac_input := Some "end-location";
                         ac_bindings := [("bounds", Some n)]; ac_place := None |}
       else autocompleteEnd w;
     markers := markers w;
     currentLocationMarker := currentLocationMarker w;
     document := doc;
     trafficLayers :=
       if t then <[layer_id := None]> (trafficLayers w) else trafficLayers w;
     listeners :=
       listeners w
       ++ (if s then [mkListener (OnObject start_id) "place_changed" start_place_changed]
           else [])
       ++ (if e then [mkListener (OnObject end_id) "place_changed" end_place_changed]
           else [])
       ++ guarded_listener doc "search-btn" "click" performSearch_handler
       ++ guarded_listener doc "directions-btn" "click" calculateDirections_handler
       ++ guarded_listener doc "clear-btn" "click" clearMap_handler
       ++ guarded_listener doc "my-location-btn" "click" getCurrentLocation_handler
       ++ guarded_listener doc "map-type" "change" mapType_change
       ++ guarded_listener doc "traffic-toggle" "change" (traffic_change layer_id)
       ++ [mkListener (OnObject n) "click" map_click;
           mkListener (OnObject (2 + n)) "directions_changed" directions_changed];
     next_obj := bump t layer_id;
     calls := calls w ++ [geolocation_request] |}.

(** Registration of a control's listener when the control is present. *)
Definition guarded_add (doc : gmap string Element) (n : Node) (ev : string)
    (h : Handler) (ls : list Listener) : list Listener :=
  if truthy (node_of doc n) then add_listener n ev h ls else ls.

(** The six registrations of [setupEventListeners], in their order, on top
    of the listeners [ls] already there. *)
Definition add_controls (doc : gmap string Element) (layer : ObjId)
    (ls : list Listener) : list Listener :=
  guarded_add doc "traffic-toggle" "change" (traffic_change layer)
    (guarded_add doc "map-type" "change" mapType_change
       (guarded_add doc "my-location-btn" "click" getCurrentLocation_handler
          (guarded_add doc "clear-btn" "click" clearMap_handler
             (guarded_add doc "directions-btn" "click" calculateDirections_handler
                (guarded_add doc "search-btn" "click" performSearch_handler ls))))).

Definition snoc_if (b : bool) (l : Listener) (ls : list Listener) : list Listener :=
  if b then ls ++ [l] else ls.

(** The world [initMap] leaves behind, from any state, when the provider
    builds the view. *)
Definition after_initMap_any (w : World) : World :=
  let doc := document w in
  let n := next_obj w in
  let s := truthy (node_of doc "start-location") in
  let e := truthy (node_of doc "end-location") in
  let t := truthy (node_of doc "traffic-toggle") in
  let start_id := 4 + n in
  let end_id := bump s start_id in
  let layer_id := bump e end_id in
  {| map := map (after_initMap w);
     directionsService := directionsService (after_initMap w);
     directionsRenderer := directionsRenderer (after_initMap w);
     placesService := placesService (after_initMap w);
     autocompleteStart := autocompleteStart (after_initMap w);
     autocompleteEnd := autocompleteEnd (after_initMap w);
     markers := markers w;
     currentLocationMarker := currentLocationMarker w;
     document := doc;
     trafficLayers := trafficLayers (after_initMap w);
     listeners :=
       (add_controls doc layer_id
          (snoc_if e (mkListener (OnObject end_id) "place_changed" end_place_changed)
             (snoc_if s (mkListener (OnObject start_id) "place_changed"
                           start_place_changed)
                (listeners w)))
        ++ [mkListener (OnObject n) "click" map_click])
       ++ [mkListener (OnObject (2 + n)) "directions_changed" directions_changed];
     next_obj := bump t layer_id;
     calls := calls w ++ [geolocation_request] |}.

(** ** Statement vocabulary *)

Definition place_changed_handler (k : Which) : Handler :=
  match k with Start => start_place_changed | End_ => end_place_changed end.

Definition role_of (k : Which) : string :=
  match k with Start => "start" | End_ => "end" end.

Definition on_node (l : Listener) : bool :=
  match l_target l with OnNode _ => true | OnObject _ => false end.

(** The listeners that sit on DOM nodes, in the order of registration. *)
Definition node_listeners (w : World) : list Listener :=
  List.filter on_node (listeners w).

(** Adding markers one after the other. *)
Definition add_markers (added : list (LatLng * option string * string)) (w : World)
  : World :=
  foldl (fun w a => snd (addMarker a.1.1 a.1.2 a.2 w)) w added.

(** The spec's words for initialization: the container element, the initial
    center and the initial zoom are parameters and the view is created from
    them; the rest is as in [initMap]. *)
Definition initialize_spec (mapDivOk : option Node -> bool)
    (containerElement : option Node) (initialCenter : LatLng) (initialZoom : Z)
  : M unit :=
  m <- new_Map mapDivOk containerElement
         {| o_zoom := initialZoom; o_center := initialCenter;
            o_mapTypeControl := true; o_streetViewControl := true;
            o_fullscreenControl := true; o_zoomControl := true |};;
  modify (set_map (Some m));;
  ds <- new_DirectionsService;;
  modify (set_directionsService (Some ds));;
  panelEl <- getElementById "directions-panel";;
  dr <- new_DirectionsRenderer true panelEl;;
  modify (set_directionsRenderer (Some dr));;
  m <- gets map;;
  directionsRenderer_setMap m;;
  m <- gets map;;
  ps <- new_PlacesService m;;
  modify (set_placesService (Some ps));;
  setupAutocomplete;;
  getCurrentLocation;;
  setupEventListeners;;
  directionsRenderer_addListener "directions_changed" directions_changed.

(** ** Sample pages *)

(** A provider that refuses a missing container, as the real one does. *)
Definition strict_provider (div : option Node) : bool := truthy div.

Definition plain : Element := {| value := EmptyString; checked := false |}.

(** Every element the script looks up. *)
Definition doc_full : gmap string Element :=
  list_to_map
    [("map", plain); ("directions-panel", plain);
     ("start-location", plain); ("end-location", plain);
     ("search-btn", plain); ("directions-btn", plain); ("clear-btn", plain);
     ("my-location-btn", plain); ("map-type", {| value := "roadmap"; checked := false |});
     ("traffic-toggle", plain)].

(** The container, one input, two buttons and the checkbox; the rest is
    missing. *)
Definition doc_sparse : gmap string Element :=
  list_to_map
    [("map", plain); ("start-location", plain); ("search-btn", plain);
     ("clear-btn", plain); ("traffic-toggle", plain)].

Definition ferry_building : Place :=
  {| name := Some "Ferry Building";
     geometry := Some {| location := {| lat := 37.7955; lng := -122.3937 |} |} |}.

Definition free_text : Place := {| name := Some "somewhere nice"; geometry := None |}.

Definition origin : LatLng := {| lat := 0; lng := 0 |}.

(** The page made from [doc_full], and what the samples below need of it. *)
Definition page0 : World := initialized strict_provider doc_full.

Definition view0 : MapView :=
  {| mv_id := 0; mapDiv := Some "map"; zoom := 13; center := san_francisco;
     mapTypeId := None; mapTypeControl := true; streetViewControl := true;
     fullscreenControl := true; zoomControl := true |}.

(** The provider stores the chosen place before it notifies the listener. *)
Definition select_place (k : Which) (p : Place) (w : World) : World :=
  match autocomplete_var k w with
  | Some a => set_autocomplete_var k (Some (with_place p a)) w
  | None => w
  end.

Definition start_with (p : Place) : Autocomplete :=
  {| ac_id := 4; ac_input := Some "start-location";
     ac_bindings := [("bounds", Some 0)]; ac_place := Some p |}.

Definition end_with (p : Place) : Autocomplete :=
  {| ac_id := 5; ac_input := Some "end-location";
     ac_bindings := [("bounds", Some 0)]; ac_place := Some p |}.

Definition satellite_chosen : Element := {| value := "satellite"; checked := false |}.

Definition box_checked : Element := {| value := "on"; checked := true |}.

Definition box_unchecked : Element := {| value := "on"; checked := false |}.

Definition click_on_place : MapMouseEvent :=
  {| placeId := Some "ChIJIQBpAG2ahYAR_6128GcTUEo";
     latLng := {| lat := 37.7955; lng := -122.3937 |} |}.

(** ** Vocabulary for the properties of the single functions *)

(** The listeners of the six controls, as [setupEventListeners] registers
    them when the traffic layer it creates is [layer]. *)
Definition control_listeners (doc : gmap string Element) (layer : ObjId)
  : list Listener :=
  guarded_listener doc "search-btn" "click" performSearch_handler
  ++ guarded_listener doc "directions-btn" "click" calculateDirections_handler
  ++ guarded_listener doc "clear-btn" "click" clearMap_handler
  ++ guarded_listener doc "my-location-btn" "click" getCurrentLocation_handler
  ++ guarded_listener doc "map-type" "change" mapType_change
  ++ guarded_listener doc "traffic-toggle" "change" (traffic_change layer).

(** A run of change events on the traffic checkbox, each with the state of
    the box at that time. *)
Definition traffic_changes (trafficLayer : ObjId) (boxes : list Element) (w : World)
  : World :=
  foldl (fun w box => snd (run_handler (traffic_change trafficLayer) (DomEvent box) w))
        w boxes.

(** A run of change events on the map-type selector. *)
Definition mapType_changes (selects : list Element) (w : World) : World :=
  foldl (fun w sel => snd (run_handler mapType_change (DomEvent sel) w)) w selects.

(** The target a change event leaves the traffic layer with. *)
Definition traffic_target (box : Element) (w : World) : option ObjId :=
  if checked box then mv_id <$> map w else None.

(** ** Properties *)

(** Symbolic execution of a computation: unfold the monad, the primitives
    and the record plumbing, and leave the document's lookups in place. *)
Ltac run_script :=
  cbv beta iota zeta delta
    [bind ret throw gets modify fresh record_call
     getElementById node_of truthy truthy_string addEventListener
     new_Map new_DirectionsService new_DirectionsRenderer new_PlacesService
     new_Autocomplete new_TrafficLayer trafficLayer_setMap
     map_panTo map_setMapTypeId map_addListener with_directions with_center
     with_mapTypeId with_place
     directionsRenderer_setMap directionsRenderer_addListener
     directionsRenderer_getDirections
     autocomplete_var set_autocomplete_var autocomplete_bindTo
     autocomplete_addListener autocomplete_getPlace place_geometry place_name
     addMarker clearMap getCurrentLocation performSearch
     calculateDirections updateRouteInfo getPlaceDetails
     on_start_place_changed on_end_place_changed on_mapType_change
     on_traffic_change on_directions_changed on_map_click run_handler
     setupAutocomplete setupEventListeners initMap initMap_options
     set_map set_directionsService set_directionsRenderer set_placesService
     set_autocompleteStart set_autocompleteEnd set_markers set_trafficLayers
     set_listeners set_next_obj set_calls
     map directionsService directionsRenderer placesService autocompleteStart
     autocompleteEnd markers currentLocationMarker document trafficLayers
     listeners next_obj calls
     mv_id mapDiv zoom center mapTypeId mapTypeControl streetViewControl
     fullscreenControl zoomControl dr_id draggable panel dr_map directions
     ds_id ps_id ps_map ac_id ac_input ac_bindings ac_place
     o_zoom o_center o_mapTypeControl o_streetViewControl o_fullscreenControl
     o_zoomControl location name geometry value checked placeId latLng
     fmap option_fmap option_map mbind option_bind fst snd].

(** Case analysis on the variables a computation branches on. *)
Ltac split_scrutinees :=
  repeat match goal with
         | |- context [match ?x with _ => _ end] => is_var x; destruct x
         end.

Lemma initMap_closed_form_any (mapDivOk : option Node -> bool) (w : World) :
  mapDivOk (node_of (document w) "map") = true ->
  initMap mapDivOk w = (Ok tt, after_initMap_any w).
Proof.
  intros Hok. destruct w as [m0 ds0 dr0 ps0 as0 ae0 mk0 cl0 doc tl0 ls0 n0 c0].
  unfold after_initMap_any, after_initMap, add_controls, guarded_add, snoc_if,
    guarded_listener, bump.
  revert Hok. run_script. intros ->.
  destruct (doc !! "start-location"), (doc !! "end-location"),
    (doc !! "search-btn"), (doc !! "directions-btn"), (doc !! "clear-btn"),
    (doc !! "my-location-btn"), (doc !! "map-type"), (doc !! "traffic-toggle").
  all: reflexivity.
Qed.

Lemma already_registered_app (n : string) (ev : string) (h : Handler)
    (ls ls' : list Listener) :
  already_registered n ev h (ls ++ ls')
  = already_registered n ev h ls || already_registered n ev h ls'.
Proof. apply existsb_app. Qed.

Lemma already_registered_no_node (n : string) (ev : string) (h : Handler)
    (ls : list Listener) :
  List.filter on_node ls = [] -> already_registered n ev h ls = false.
Proof.
  induction ls as [|l ls IH]; [reflexivity|].
  cbn. unfold on_node at 1. destruct (l_target l); [discriminate|].
  intros Hf. cbn. by apply IH.
Qed.

Ltac settle_registrations ls Hls :=
  repeat
    (rewrite <- ?app_assoc;
     match goal with
     | |- context [already_registered ?n ?ev ?h (ls ++ ?c)] =>
         rewrite (already_registered_app n ev h ls c),
           (already_registered_no_node n ev h ls Hls);
         let v := eval vm_compute in (already_registered n ev h c) in
         change (already_registered n ev h c) with v; cbn [orb]
     | |- context [already_registered ?n ?ev ?h ls] =>
         rewrite (already_registered_no_node n ev h ls Hls)
     end).

(** On top of listeners none of which sits on a node, the six registrations
    append the listener of every control present. *)
Lemma add_controls_fresh (doc : gmap string Element) (layer : ObjId)
    (ls : list Listener) :
  List.filter on_node ls = [] ->
  add_controls doc layer ls = ls ++ control_listeners doc layer.
Proof.
  intros Hls. unfold add_controls, control_listeners, guarded_add, guarded_listener,
    add_listener.
  destruct (truthy (node_of doc "search-btn")),
    (truthy (node_of doc "directions-btn")), (truthy (node_of doc "clear-btn")),
    (truthy (node_of doc "my-location-btn")), (truthy (node_of doc "map-type")),
    (truthy (node_of doc "traffic-toggle")).
  all: settle_registrations ls Hls.
  all: cbn [app]; rewrite <- ?app_assoc, ?app_nil_r; reflexivity.
Qed.

Lemma after_initMap_any_fresh (doc : gmap string Element) :
  after_initMap_any (initial_world doc) = after_initMap (initial_world doc).
Proof.
  unfold after_initMap_any.
  cbn [document next_obj listeners markers currentLocationMarker calls initial_world].
  rewrite add_controls_fresh.
  - unfold after_initMap, control_listeners, snoc_if.
    cbn [document next_obj listeners markers currentLocationMarker calls
         map directionsService directionsRenderer placesService autocompleteStart
         autocompleteEnd trafficLayers initial_world].
    destruct (truthy (node_of doc "start-location")),
      (truthy (node_of doc "end-location")); cbn [app];
      rewrite <- ?app_assoc; reflexivity.
  - unfold snoc_if.
    destruct (truthy (node_of doc "start-location")),
      (truthy (node_of doc "end-location")); reflexivity.
Qed.

Lemma initMap_closed_form (mapDivOk : option Node -> bool)
    (doc : gmap string Element) :
  mapDivOk (node_of doc "map") = true ->
  initMap mapDivOk (initial_world doc) = (Ok tt, after_initMap (initial_world doc)).
Proof.
  intros Hok. rewrite (initMap_closed_form_any mapDivOk (initial_world doc) Hok).
  by rewrite after_initMap_any_fresh.
Qed.

(** *** Autocomplete selections *)

(** C2. A selection whose place carries geometry: on the start input the
    view's center becomes the place's location (the view is otherwise as it
    was) and exactly one marker, tagged start, at that location and with the
    place's name, is appended to the marker sequence; on the end input the
    view is left as it was and exactly one marker tagged end is appended.
    Nothing else changes.  (The appending is that of [addMarker], whose body
    is modelled from the spec.) *)
Theorem place_changed_with_geometry :
  (forall (w : World) (mv : MapView) (a : Autocomplete) (p : Place) (g : Geometry),
      map w = Some mv -> autocompleteStart w = Some a ->
      ac_place a = Some p -> geometry p = Some g ->
      let r := run_handler start_place_changed Notification w in
      r = (Ok tt,
           set_markers (markers w ++ [mkMarker (location g) (name p) "start"])
             (set_map (Some (with_center (location g) mv)) w))
      /\ r.1 = Ok tt
      /\ (center <$> map r.2) = Some (location g)
      /\ (mv_id <$> map r.2) = Some (mv_id mv)
      /\ (mapDiv <$> map r.2) = Some (mapDiv mv)
      /\ (zoom <$> map r.2) = Some (zoom mv)
      /\ (mapTypeId <$> map r.2) = Some (mapTypeId mv)
      /\ markers r.2
         = markers w ++ [{| position := location g; title := name p; role := "start" |}]
      /\ length (markers r.2) = S (length (markers w))
      /\ directionsRenderer r.2 = directionsRenderer w
      /\ trafficLayers r.2 = trafficLayers w
      /\ listeners r.2 = listeners w
      /\ calls r.2 = calls w)
  /\
  (forall (w : World) (a : Autocomplete) (p : Place) (g : Geometry),
      autocompleteEnd w = Some a ->
      ac_place a = Some p -> geometry p = Some g ->
      let r := run_handler end_place_changed Notification w in
      r = (Ok tt,
           set_markers (markers w ++ [mkMarker (location g) (name p) "end"]) w)
      /\ r.1 = Ok tt
      /\ map r.2 = map w
      /\ markers r.2
         = markers w ++ [{| position := location g; title := name p; role := "end" |}]
      /\ length (markers r.2) = S (length (markers w))
      /\ directionsRenderer r.2 = directionsRenderer w
      /\ trafficLayers r.2 = trafficLayers w
      /\ listeners r.2 = listeners w
      /\ calls r.2 = calls w).
Proof.
  split.
  - intros w mv a p g Hm Ha Hp Hg. destruct w, mv, a, p; cbn in *; subst.
    repeat split. cbn. rewrite length_app, Nat.add_comm. reflexivity.
  - intros w a p g Ha Hp Hg. destruct w, a, p; cbn in *; subst.
    repeat split. cbn. rewrite length_app, Nat.add_comm. reflexivity.
Qed.

(** C3. A selection whose place has no geometry changes nothing: the world
    after the listener is the world before it, so the marker sequence, the
    view and the calls made to the outside (no feedback) are as they were. *)
Theorem place_changed_without_geometry (k : Which) (w : World)
    (a : Autocomplete) (p : Place) :
  autocomplete_var k w = Some a -> ac_place a = Some p -> geometry p = None ->
  run_handler (place_changed_handler k) Notification w = (Ok tt, w).
Proof.
  intros Ha Hp Hg. destruct k, w, a, p; cbn in *; subst; reflexivity.
Qed.

(** *** Controls *)

(** C6. The change listener of the map-type selector sets the view's map
    type to the selector's value and changes nothing else: the view keeps
    its center, zoom and every other property, and overlays, markers and
    the rest of the world are as before. *)
Theorem mapType_change_sets_type (v : string) (this : Element) (w : World)
    (mv : MapView) :
  value this = v -> map w = Some mv ->
  let r := run_handler mapType_change (DomEvent this) w in
  r = (Ok tt, set_map (Some (with_mapTypeId v mv)) w)
  /\ (mapTypeId <$> map r.2) = Some (Some v)
  /\ (center <$> map r.2) = Some (center mv)
  /\ (zoom <$> map r.2) = Some (zoom mv)
  /\ (mapDiv <$> map r.2) = Some (mapDiv mv)
  /\ trafficLayers r.2 = trafficLayers w
  /\ markers r.2 = markers w
  /\ directionsRenderer r.2 = directionsRenderer w.
Proof.
  intros <- Hm. destruct w; cbn in *; subst. repeat split.
Qed.

(** C4. Traffic toggle, on then off: with the box checked the layer is put
    on the current view; with the box unchecked afterwards its target is
    none; the two together change nothing but the layer's target, and give
    back the starting world when the layer was not shown before. *)
Theorem traffic_toggle_round_trip (trafficLayer : ObjId) (on off : Element)
    (w : World) :
  checked on = true -> checked off = false ->
  let r1 := run_handler (traffic_change trafficLayer) (DomEvent on) w in
  let r2 := run_handler (traffic_change trafficLayer) (DomEvent off) r1.2 in
  r1.1 = Ok tt
  /\ trafficLayers r1.2 !! trafficLayer = Some (mv_id <$> map w)
  /\ (forall mv, map w = Some mv ->
        trafficLayers r1.2 !! trafficLayer = Some (Some (mv_id mv)))
  /\ r2.1 = Ok tt
  /\ trafficLayers r2.2 !! trafficLayer = Some None
  /\ r2.2 = set_trafficLayers (<[trafficLayer := None]> (trafficLayers w)) w
  /\ (trafficLayers w !! trafficLayer = Some None -> r2.2 = w).
Proof.
  intros Hon Hoff. destruct w as [m0 ds0 dr0 ps0 as0 ae0 mk0 cl0 doc tl0 ls0 n0 c0].
  cbn. unfold on_traffic_change. rewrite Hon, Hoff. run_script. cbn.
  repeat split.
  - apply lookup_insert_eq.
  - intros mv ->. apply lookup_insert_eq.
  - apply lookup_insert_eq.
  - by rewrite insert_insert_eq.
  - intros Hl. rewrite insert_insert_eq. by rewrite insert_id.
Qed.

Lemma markers_add_markers (added : list (LatLng * option string * string))
    (w : World) :
  markers (add_markers added w) =
    markers w ++ List.map (fun a => mkMarker a.1.1 a.1.2 a.2) added.
Proof.
  revert w. induction added as [|x xs IH]; intros w.
  - cbn. by rewrite app_nil_r.
  - change (add_markers (x :: xs) w)
      with (add_markers xs (snd (addMarker x.1.1 x.1.2 x.2 w))).
    rewrite IH. destruct w; cbn. by rewrite <- app_assoc.
Qed.

(** C5. Clear map after any number of added markers: whatever the world and
    however many markers were added to it, the clear listener leaves a
    marker sequence of length zero and no rendered route.  ([addMarker] and
    [clearMap] are modelled from the spec.) *)
Theorem clearMap_after_markers (N : nat)
    (added : list (LatLng * option string * string)) (arg : EventArg) (w : World) :
  length added = N ->
  let w1 := add_markers added w in
  let r := run_handler clearMap_handler arg w1 in
  length (markers w1) = length (markers w) + N
  /\ r.1 = Ok tt
  /\ markers r.2 = []
  /\ length (markers r.2) = 0
  /\ rendered_route r.2 = None.
Proof.
  intros <-. cbn zeta. split.
  - rewrite markers_add_markers, length_app, length_map. reflexivity.
  - generalize (add_markers added w). intros w1.
    destruct w1 as [m0 ds0 [dr|] ps0 as0 ae0 mk0 cl0 doc tl0 ls0 n0 c0];
      destruct arg; cbn; auto.
Qed.

(** C9. A click on the map that carries a place identifier: the listener
    stops the event (no provider popup) and then calls [getPlaceDetails] with
    exactly that identifier and the clicked coordinate, and does nothing
    else; with the body of [getPlaceDetails] as the spec has it, the outcome
    is the stop followed by one request for the details of that identifier
    at that coordinate. *)
Theorem map_click_on_place (event : MapMouseEvent) (pid : string) (w : World) :
  placeId event = Some pid -> pid <> EmptyString ->
  run_handler map_click (MapClick event) w =
    (record_call event_stop;; getPlaceDetails (Some pid) (latLng event)) w
  /\ run_handler map_click (MapClick event) w =
       (Ok tt,
        set_calls (calls w ++ [event_stop; placeDetails_request pid (latLng event)]) w).
Proof.
  intros Hp Hne. destruct w, event as [pl ll]; cbn in *; subst.
  destruct pid as [|c s]; [congruence|].
  split; [reflexivity|]. run_script. by rewrite <- app_assoc.
Qed.

(** *** Initialization *)

Lemma filter_guarded_listener (doc : gmap string Element) (n : string)
    (ev : string) (h : Handler) :
  List.filter on_node (guarded_listener doc n ev h) = guarded_listener doc n ev h.
Proof. unfold guarded_listener. by destruct (truthy (node_of doc n)). Qed.

Lemma In_guarded_listener (doc : gmap string Element) (n : string)
    (ev : string) (h : Handler) (l : Listener) :
  In l (guarded_listener doc n ev h) ->
  l = mkListener (OnNode n) ev h /\ is_Some (doc !! n).
Proof.
  unfold guarded_listener, node_of.
  destruct (doc !! n) eqn:E; cbn; [|tauto].
  intros [<-|[]]. eauto.
Qed.

Lemma node_listeners_after_initMap (doc : gmap string Element) :
  node_listeners (after_initMap (initial_world doc)) =
    guarded_listener doc "search-btn" "click" performSearch_handler
    ++ guarded_listener doc "directions-btn" "click" calculateDirections_handler
    ++ guarded_listener doc "clear-btn" "click" clearMap_handler
    ++ guarded_listener doc "my-location-btn" "click" getCurrentLocation_handler
    ++ guarded_listener doc "map-type" "change" mapType_change
    ++ guarded_listener doc "traffic-toggle" "change"
         (traffic_change
            (bump (truthy (node_of doc "end-location"))
               (bump (truthy (node_of doc "start-location")) 4))).
Proof.
  unfold node_listeners, after_initMap. cbn [listeners initial_world document next_obj].
  rewrite !List.filter_app, !filter_guarded_listener.
  destruct (truthy (node_of doc "start-location")),
    (truthy (node_of doc "end-location")); cbn; by rewrite app_nil_r.
Qed.

(** C1. Whatever optional elements the document lacks, initialization
    returns normally once the provider has built the view: the listeners on
    DOM nodes are exactly those of the controls that are present (one each,
    none for an absent control), no listener sits on a node the document
    does not have, and an autocomplete is bound exactly for the inputs that
    are present. *)
Theorem initMap_tolerates_absent_elements (mapDivOk : option Node -> bool)
    (doc : gmap string Element) :
  mapDivOk (node_of doc "map") = true ->
  let r := initMap mapDivOk (initial_world doc) in
  r.1 = Ok tt
  /\ (exists layer,
        node_listeners r.2 =
          guarded_listener doc "search-btn" "click" performSearch_handler
          ++ guarded_listener doc "directions-btn" "click" calculateDirections_handler
          ++ guarded_listener doc "clear-btn" "click" clearMap_handler
          ++ guarded_listener doc "my-location-btn" "click" getCurrentLocation_handler
          ++ guarded_listener doc "map-type" "change" mapType_change
          ++ guarded_listener doc "traffic-toggle" "change" (traffic_change layer))
  /\ (forall l (n : string), In l (listeners r.2) -> l_target l = OnNode n -> is_Some (doc !! n))
  /\ (is_Some (autocompleteStart r.2) <-> is_Some (doc !! "start-location"))
  /\ (is_Some (autocompleteEnd r.2) <-> is_Some (doc !! "end-location")).
Proof.
  intros Hok. cbn zeta.
  rewrite (initMap_closed_form mapDivOk doc Hok). cbn [fst snd].
  split; [reflexivity|]. split; [eexists; apply node_listeners_after_initMap|].
  split; [|split].
  - intros l n Hin Ht.
    assert (Hn : In l (node_listeners (after_initMap (initial_world doc)))).
    { apply List.filter_In. split; [done|]. unfold on_node. by rewrite Ht. }
    rewrite node_listeners_after_initMap in Hn.
    repeat (apply List.in_app_or in Hn; destruct Hn as [Hn|Hn]).
    all: apply In_guarded_listener in Hn; destruct Hn as [-> Hs].
    all: cbn in Ht; by injection Ht as <-.
  - unfold after_initMap, node_of. cbn.
    destruct (doc !! "start-location"); cbn; split; intros [? ?]; eauto; discriminate.
  - unfold after_initMap, node_of. cbn.
    destruct (doc !! "end-location"); cbn; split; intros [? ?]; eauto; discriminate.
Qed.

Lemma initMap_tolerates_absent_elements_witness :
  strict_provider (node_of doc_sparse "map") = true
  /\ doc_sparse !! "directions-btn" = None
  /\ (initMap strict_provider (initial_world doc_sparse)).1 = Ok tt
  /\ (forall l (n : string),
        In l (listeners (initMap strict_provider (initial_world doc_sparse)).2) ->
        l_target l = OnNode n -> is_Some (doc_sparse !! n)).
Proof.
  pose proof (initMap_tolerates_absent_elements strict_provider doc_sparse
                ltac:(vm_compute; reflexivity)) as H.
  cbv zeta in H. destruct H as (H1 & _ & H3 & _).
  split; [vm_compute; reflexivity|]. split; [vm_compute; reflexivity|].
  split; [exact H1 | exact H3].
Defined.

(** C10. The container and the directions panel are looked up and handed to
    the provider without any test of presence: whatever the document, the
    view is built on the result of looking up [map] and the renderer gets
    the result of looking up [directions-panel], be it a node or null.
    Whether initialization survives a missing container is the provider's
    verdict alone: when the provider refuses, [initMap] throws at its first
    statement and sets nothing up. *)
Theorem initMap_container_unguarded (mapDivOk : option Node -> bool) (w : World) :
  let r := initMap mapDivOk w in
  if mapDivOk (node_of (document w) "map") then
    r.1 = Ok tt
    /\ (mapDiv <$> map r.2) = Some (node_of (document w) "map")
    /\ (panel <$> directionsRenderer r.2) = Some (node_of (document w) "directions-panel")
  else
    r = (Throw (ProviderError "Map: mapDiv"), w).
Proof.
  cbn zeta. destruct (mapDivOk (node_of (document w) "map")) eqn:Hok.
  - rewrite (initMap_closed_form_any _ _ Hok). repeat split.
  - destruct w. revert Hok. run_script. by intros ->.
Qed.

(** The source's [initMap] is the spec's initialization at fixed arguments. *)
Lemma initMap_is_initialize_at_constants (mapDivOk : option Node -> bool) (w : World) :
  initMap mapDivOk w =
    initialize_spec mapDivOk (node_of (document w) "map") san_francisco 13 w.
Proof. reflexivity. Qed.

(** C8, as the claim states it, fails: [initMap] declares no parameters, so
    asking for the container [map], center (0, 0) and zoom 1 yields the same
    view as any other call, centered on San Francisco at zoom 13, not the
    view the spec's initialization builds from those arguments. *)
Lemma initMap_ignores_arguments_counterexample :
  map (initMap strict_provider (initial_world doc_full)).2
    <> map (initialize_spec strict_provider (Some "map") origin 1
              (initial_world doc_full)).2
  /\ (center <$> map (initMap strict_provider (initial_world doc_full)).2)
       = Some san_francisco
  /\ (zoom <$> map (initMap strict_provider (initial_world doc_full)).2) = Some 13%Z
  /\ san_francisco <> origin.
Proof.
  split; [|split; [|split]].
  - vm_compute. intros H. discriminate H.
  - vm_compute. reflexivity.
  - vm_compute. reflexivity.
  - intros H. discriminate H.
Qed.

(** C8, amended.  Initialization takes no parameters: it is the spec's
    initialization at the container found under [map], the center
    (37.7749, -122.4194) and zoom 13.  When the provider builds the view,
    it returns normally with: that view; a directions service; a draggable
    directions renderer on the panel found under [directions-panel] and
    attached to the view; a places service bound to the view; for each
    input present an autocomplete on it, its bounds bound to the view, with
    its [place_changed] listener; one geolocation request; the DOM
    listeners of the controls present; the click listener on the view and
    the [directions_changed] listener on the renderer. *)
Theorem initMap_builds_fixed_view (mapDivOk : option Node -> bool)
    (doc : gmap string Element) :
  mapDivOk (node_of doc "map") = true ->
  let w := initial_world doc in
  let r := initMap mapDivOk w in
  r = initialize_spec mapDivOk (node_of doc "map") san_francisco 13 w
  /\ r.1 = Ok tt
  /\ exists mv ds dr ps,
       map r.2 = Some mv
       /\ mapDiv mv = node_of doc "map" /\ center mv = san_francisco /\ zoom mv = 13%Z
       /\ directionsService r.2 = Some ds
       /\ directionsRenderer r.2 = Some dr
       /\ draggable dr = true /\ panel dr = node_of doc "directions-panel"
       /\ dr_map dr = Some (mv_id mv)
       /\ placesService r.2 = Some ps /\ ps_map ps = Some (mv_id mv)
       /\ (forall k input, input = match k with
                                   | Start => "start-location"
                                   | End_ => "end-location"
                                   end ->
             is_Some (doc !! input) ->
             exists a, autocomplete_var k r.2 = Some a
                       /\ ac_input a = Some input
                       /\ ac_bindings a = [("bounds", Some (mv_id mv))]
                       /\ In (mkListener (OnObject (ac_id a)) "place_changed"
                                (place_changed_handler k)) (listeners r.2))
       /\ calls r.2 = [geolocation_request]
       /\ (exists layer,
             node_listeners r.2 =
               guarded_listener doc "search-btn" "click" performSearch_handler
               ++ guarded_listener doc "directions-btn" "click" calculateDirections_handler
               ++ guarded_listener doc "clear-btn" "click" clearMap_handler
               ++ guarded_listener doc "my-location-btn" "click" getCurrentLocation_handler
               ++ guarded_listener doc "map-type" "change" mapType_change
               ++ guarded_listener doc "traffic-toggle" "change" (traffic_change layer))
       /\ In (mkListener (OnObject (mv_id mv)) "click" map_click) (listeners r.2)
       /\ In (mkListener (OnObject (dr_id dr)) "directions_changed" directions_changed)
            (listeners r.2).
Proof.
  intros Hok. cbn zeta. split; [reflexivity|].
  rewrite (initMap_closed_form mapDivOk doc Hok). cbn [fst snd].
  split; [reflexivity|].
  do 4 eexists. unfold after_initMap at 1 2 3 4.
  cbn [map directionsService directionsRenderer placesService].
  do 11 (split; [reflexivity|]).
  split; [|split; [reflexivity|split; [eexists; apply node_listeners_after_initMap|]]].
  - intros k input -> [el Hel]. unfold after_initMap, node_of.
    destruct k; cbn; rewrite Hel; cbn.
    + eexists. do 3 (split; [reflexivity|]). cbn. auto.
    + eexists. do 3 (split; [reflexivity|]). cbn.
      destruct (doc !! "start-location"); cbn; auto.
  - unfold after_initMap. cbn [listeners initial_world next_obj app].
    rewrite !List.in_app_iff. cbn. split; intuition.
Qed.

Lemma initMap_builds_fixed_view_witness :
  strict_provider (node_of doc_full "map") = true
  /\ (initMap strict_provider (initial_world doc_full)).1 = Ok tt
  /\ (center <$> map (initMap strict_provider (initial_world doc_full)).2)
       = Some san_francisco.
Proof.
  pose proof (initMap_builds_fixed_view strict_provider doc_full
                ltac:(vm_compute; reflexivity)) as H.
  cbv zeta in H. destruct H as (_ & H1 & mv & ds & dr & ps & Hm & _ & Hc & _).
  split; [vm_compute; reflexivity|]. split; [exact H1|].
  rewrite Hm. cbn. by rewrite Hc.
Defined.

(** *** The theorems at sample pages *)

Lemma place_changed_with_geometry_witness :
  (map (select_place Start ferry_building page0) = Some view0
   /\ autocompleteStart (select_place Start ferry_building page0)
        = Some (start_with ferry_building)
   /\ center view0 = san_francisco
   /\ markers (select_place Start ferry_building page0) = []
   /\ (run_handler start_place_changed Notification
         (select_place Start ferry_building page0)).1 = Ok tt
   /\ (center <$> map (run_handler start_place_changed Notification
                         (select_place Start ferry_building page0)).2)
      = Some {| lat := 37.7955; lng := -122.3937 |}
   /\ markers (run_handler start_place_changed Notification
                 (select_place Start ferry_building page0)).2
      = [{| position := {| lat := 37.7955; lng := -122.3937 |};
            title := Some "Ferry Building"; role := "start" |}])
  /\ (autocompleteEnd (select_place End_ ferry_building page0)
        = Some (end_with ferry_building)
      /\ (run_handler end_place_changed Notification
            (select_place End_ ferry_building page0)).1 = Ok tt
      /\ (center <$> map (run_handler end_place_changed Notification
                            (select_place End_ ferry_building page0)).2)
         = Some san_francisco
      /\ markers (run_handler end_place_changed Notification
                    (select_place End_ ferry_building page0)).2
         = [{| position := {| lat := 37.7955; lng := -122.3937 |};
               title := Some "Ferry Building"; role := "end" |}]).
Proof.
  assert (Hm : map (select_place Start ferry_building page0) = Some view0)
    by (vm_compute; reflexivity).
  assert (Hs : autocompleteStart (select_place Start ferry_building page0)
               = Some (start_with ferry_building)) by (vm_compute; reflexivity).
  assert (Hk : markers (select_place Start ferry_building page0) = [])
    by (vm_compute; reflexivity).
  assert (He : autocompleteEnd (select_place End_ ferry_building page0)
               = Some (end_with ferry_building)) by (vm_compute; reflexivity).
  assert (Hme : map (select_place End_ ferry_building page0) = Some view0)
    by (vm_compute; reflexivity).
  assert (Hke : markers (select_place End_ ferry_building page0) = [])
    by (vm_compute; reflexivity).
  split.
  - destruct (proj1 place_changed_with_geometry _ _ _ _ _ Hm Hs eq_refl eq_refl)
      as (_ & H1 & H2 & _ & _ & _ & _ & H3 & _).
    cbv zeta in H1, H2, H3. rewrite Hk in H3.
    split; [exact Hm|]. split; [exact Hs|]. split; [reflexivity|].
    split; [exact Hk|]. split; [exact H1|]. split; [exact H2 | exact H3].
  - destruct (proj2 place_changed_with_geometry _ _ _ _ He eq_refl eq_refl)
      as (_ & H1 & H2 & H3 & _).
    cbv zeta in H1, H2, H3. rewrite Hke in H3. rewrite Hme in H2.
    split; [exact He|]. split; [exact H1|]. split; [by rewrite H2 | exact H3].
Defined.

Lemma place_changed_without_geometry_witness :
  autocomplete_var End_ (select_place End_ free_text page0) = Some (end_with free_text)
  /\ ac_place (end_with free_text) = Some free_text
  /\ geometry free_text = None
  /\ run_handler (place_changed_handler End_) Notification
       (select_place End_ free_text page0)
     = (Ok tt, select_place End_ free_text page0).
Proof.
  assert (He : autocomplete_var End_ (select_place End_ free_text page0)
               = Some (end_with free_text)) by (vm_compute; reflexivity).
  split; [exact He|]. split; [reflexivity|]. split; [reflexivity|].
  exact (place_changed_without_geometry End_ _ _ _ He eq_refl eq_refl).
Defined.

Lemma mapType_change_sets_type_witness :
  value satellite_chosen = "satellite"
  /\ map page0 = Some view0
  /\ (mapTypeId <$> map (run_handler mapType_change (DomEvent satellite_chosen) page0).2)
     = Some (Some "satellite").
Proof.
  assert (Hm : map page0 = Some view0) by (vm_compute; reflexivity).
  split; [reflexivity|]. split; [exact Hm|].
  exact (proj1 (proj2 (mapType_change_sets_type "satellite" satellite_chosen
                         page0 view0 eq_refl Hm))).
Defined.

Lemma traffic_toggle_round_trip_witness :
  checked box_checked = true
  /\ checked box_unchecked = false
  /\ trafficLayers page0 !! 6 = Some None
  /\ (run_handler (traffic_change 6) (DomEvent box_unchecked)
        (run_handler (traffic_change 6) (DomEvent box_checked) page0).2).2 = page0.
Proof.
  assert (Hl : trafficLayers page0 !! 6 = Some None) by (vm_compute; reflexivity).
  split; [reflexivity|]. split; [reflexivity|]. split; [exact Hl|].
  destruct (traffic_toggle_round_trip 6 box_checked box_unchecked page0
              eq_refl eq_refl) as (_ & _ & _ & _ & _ & _ & H).
  exact (H Hl).
Defined.

Lemma clearMap_after_markers_witness :
  length [(origin, None, "poi"); (san_francisco, Some "City", "start")] = 2
  /\ markers
       (run_handler clearMap_handler (DomEvent plain)
          (add_markers [(origin, None, "poi"); (san_francisco, Some "City", "start")]
             page0)).2 = []
  /\ rendered_route
       (run_handler clearMap_handler (DomEvent plain)
          (add_markers [(origin, None, "poi"); (san_francisco, Some "City", "start")]
             page0)).2 = None.
Proof.
  destruct (clearMap_after_markers 2
              [(origin, None, "poi"); (san_francisco, Some "City", "start")]
              (DomEvent plain) page0 eq_refl) as (_ & _ & H1 & _ & H2).
  split; [reflexivity|]. split; [exact H1 | exact H2].
Defined.

Lemma map_click_on_place_witness :
  placeId click_on_place = Some "ChIJIQBpAG2ahYAR_6128GcTUEo"
  /\ "ChIJIQBpAG2ahYAR_6128GcTUEo" <> EmptyString
  /\ calls (run_handler map_click (MapClick click_on_place) page0).2
     = calls page0
       ++ [event_stop;
           placeDetails_request "ChIJIQBpAG2ahYAR_6128GcTUEo" (latLng click_on_place)].
Proof.
  assert (Hne : "ChIJIQBpAG2ahYAR_6128GcTUEo" <> EmptyString) by discriminate.
  split; [reflexivity|]. split; [exact Hne|].
  rewrite (proj2 (map_click_on_place click_on_place _ page0 eq_refl Hne)).
  destruct page0; reflexivity.
Defined.

(** ** Further properties of the functions of the script *)

(** *** Registration on top of listeners already there *)

Lemma filter_control_listeners (doc : gmap string Element) (layer : ObjId) :
  List.filter on_node (control_listeners doc layer) = control_listeners doc layer.
Proof.
  unfold control_listeners.
  by rewrite !List.filter_app, !filter_guarded_listener.
Qed.

Lemma add_listener_prefix (n : string) (ev : string) (h : Handler)
    (ls : list Listener) :
  ls `prefix_of` add_listener n ev h ls.
Proof.
  unfold add_listener. destruct (already_registered n ev h ls).
  - reflexivity.
  - by eexists.
Qed.

Lemma add_controls_prefix (doc : gmap string Element) (layer : ObjId)
    (ls : list Listener) :
  ls `prefix_of` add_controls doc layer ls.
Proof.
  unfold add_controls, guarded_add.
  repeat match goal with
         | |- _ `prefix_of` (if ?b then _ else _) => destruct b
         | |- _ `prefix_of` add_listener _ _ _ _ =>
             etrans; [|apply add_listener_prefix]
         end; reflexivity.
Qed.

Lemma already_registered_filter (n : string) (ev : string) (h : Handler)
    (ls : list Listener) :
  already_registered n ev h (List.filter on_node ls) = already_registered n ev h ls.
Proof.
  unfold already_registered.
  induction ls as [|l ls IH]; [reflexivity|].
  cbn [List.filter existsb]. unfold on_node at 1.
  destruct (l_target l) eqn:Ht; cbn [existsb andb]; rewrite ?Ht, IH; reflexivity.
Qed.

Lemma filter_add_controls (doc : gmap string Element) (layer : ObjId)
    (ls : list Listener) :
  List.filter on_node (add_controls doc layer ls)
  = add_controls doc layer (List.filter on_node ls).
Proof.
  assert (Hone : forall n ev h l0,
            List.filter on_node (guarded_add doc n ev h l0)
            = guarded_add doc n ev h (List.filter on_node l0)).
  { intros n ev h l0. unfold guarded_add, add_listener.
    destruct (truthy (node_of doc n)); [|reflexivity].
    rewrite already_registered_filter.
    destruct (already_registered n ev h l0); [reflexivity|].
    by rewrite List.filter_app. }
  unfold add_controls. by rewrite !Hone.
Qed.

(** Registering the controls a second time: the named functions of the four
    buttons are discarded as duplicates, the function expressions of the
    selector and of the checkbox are new callbacks and are added. *)
Lemma add_controls_again (doc : gmap string Element) (layer1 layer2 : ObjId) :
  add_controls doc layer2 (control_listeners doc layer1)
  = control_listeners doc layer1
    ++ guarded_listener doc "map-type" "change" mapType_change
    ++ guarded_listener doc "traffic-toggle" "change" (traffic_change layer2).
Proof.
  unfold add_controls, control_listeners, guarded_add, guarded_listener.
  destruct (truthy (node_of doc "search-btn")),
    (truthy (node_of doc "directions-btn")), (truthy (node_of doc "clear-btn")),
    (truthy (node_of doc "my-location-btn")), (truthy (node_of doc "map-type")),
    (truthy (node_of doc "traffic-toggle")); vm_compute; reflexivity.
Qed.

(** *** [setupEventListeners] on its own *)

Lemma setupEventListeners_run (w : World) :
  setupEventListeners w =
    let w1 :=
      set_listeners (add_controls (document w) (next_obj w) (listeners w))
        (if truthy (node_of (document w) "traffic-toggle")
         then set_trafficLayers (<[next_obj w := None]> (trafficLayers w))
                (set_next_obj (S (next_obj w)) w)
         else w) in
    match map w with
    | Some mv =>
        (Ok tt,
         set_listeners (listeners w1 ++ [mkListener (OnObject (mv_id mv)) "click" map_click])
           w1)
    | None => (Throw (TypeError "map is undefined"), w1)
    end.
Proof.
  destruct w as [m0 ds0 dr0 ps0 as0 ae0 mk0 cl0 doc tl0 ls0 n0 c0].
  unfold add_controls, guarded_add. run_script.
  destruct (doc !! "search-btn"), (doc !! "directions-btn"), (doc !! "clear-btn"),
    (doc !! "my-location-btn"), (doc !! "map-type"), (doc !! "traffic-toggle"),
    m0 as [[]|]; reflexivity.
Qed.

(** X1. [setupEventListeners] needs the view.  Called while the module
    variable [map] is still undefined it throws a TypeError at its last
    statement, and by then it has run the registrations of the controls
    present (a named function already on its button is not registered a
    second time) and created the traffic layer: the failure is not atomic.
    The listeners that were there stay in front; where no node had a
    listener before, one per control present has been added. *)
Theorem setupEventListeners_without_view (w : World) :
  map w = None ->
  let r := setupEventListeners w in
  r.1 = Throw (TypeError "map is undefined")
  /\ listeners r.2 = add_controls (document w) (next_obj w) (listeners w)
  /\ listeners w `prefix_of` listeners r.2
  /\ (List.filter on_node (listeners w) = [] ->
      listeners r.2 = listeners w ++ control_listeners (document w) (next_obj w))
  /\ next_obj r.2 = bump (truthy (node_of (document w) "traffic-toggle")) (next_obj w)
  /\ trafficLayers r.2 =
       (if truthy (node_of (document w) "traffic-toggle")
        then <[next_obj w := None]> (trafficLayers w) else trafficLayers w).
Proof.
  intros Hm. cbn zeta. rewrite setupEventListeners_run, Hm. cbn zeta.
  assert (Hl : forall w0 : World,
            listeners (set_listeners
                         (add_controls (document w) (next_obj w) (listeners w)) w0)
            = add_controls (document w) (next_obj w) (listeners w))
    by (intros w0; by destruct w0).
  cbn [fst snd]. rewrite Hl.
  split; [reflexivity|]. split; [reflexivity|].
  split; [apply add_controls_prefix|].
  split; [apply add_controls_fresh|].
  destruct w as [m0 ds0 dr0 ps0 as0 ae0 mk0 cl0 doc tl0 ls0 n0 c0]; cbn.
  destruct (truthy (node_of doc "traffic-toggle")); split; reflexivity.
Qed.

Lemma setupEventListeners_without_view_witness :
  map (initial_world doc_sparse) = None
  /\ (setupEventListeners (initial_world doc_sparse)).1
       = Throw (TypeError "map is undefined")
  /\ length (listeners (setupEventListeners (initial_world doc_sparse)).2) = 3
  /\ map (setupEventListeners (initial_world doc_sparse)).2 = None
  /\ length (listeners
               (setupEventListeners
                  (setupEventListeners (initial_world doc_sparse)).2).2) = 4.
Proof.
  assert (Hm : map (setupEventListeners (initial_world doc_sparse)).2 = None)
    by (vm_compute; reflexivity).
  destruct (setupEventListeners_without_view (initial_world doc_sparse) eq_refl)
    as (H1 & H2 & _).
  destruct (setupEventListeners_without_view _ Hm) as (_ & H3 & _).
  cbv zeta in H2, H3.
  split; [reflexivity|]. split; [exact H1|].
  split; [rewrite H2; vm_compute; reflexivity|].
  split; [exact Hm|]. rewrite H3. vm_compute. reflexivity.
Defined.

(** X2. [setupEventListeners] with the view in place returns normally from
    any state.  It keeps the listeners already registered, in their order,
    runs the registrations of the controls present (on a second run the
    named functions of the buttons are not registered again, the listeners
    of the selector and of the checkbox are) and appends the click listener
    on the current view; it creates a traffic layer, shown on no map, only
    when the checkbox is present; module variables, markers, document and
    outside calls are as before. *)
Theorem setupEventListeners_with_view (w : World) (mv : MapView) :
  map w = Some mv ->
  let r := setupEventListeners w in
  r.1 = Ok tt
  /\ listeners r.2 =
       add_controls (document w) (next_obj w) (listeners w)
       ++ [mkListener (OnObject (mv_id mv)) "click" map_click]
  /\ listeners w `prefix_of` listeners r.2
  /\ node_listeners r.2 = add_controls (document w) (next_obj w) (node_listeners w)
  /\ (node_listeners w = [] ->
      node_listeners r.2 = control_listeners (document w) (next_obj w))
  /\ next_obj r.2 = bump (truthy (node_of (document w) "traffic-toggle")) (next_obj w)
  /\ trafficLayers r.2 =
       (if truthy (node_of (document w) "traffic-toggle")
        then <[next_obj w := None]> (trafficLayers w) else trafficLayers w)
  /\ map r.2 = map w /\ directionsRenderer r.2 = directionsRenderer w
  /\ autocompleteStart r.2 = autocompleteStart w
  /\ autocompleteEnd r.2 = autocompleteEnd w
  /\ markers r.2 = markers w /\ document r.2 = document w /\ calls r.2 = calls w.
Proof.
  intros Hm. cbn zeta. rewrite setupEventListeners_run, Hm. cbn zeta. cbn [fst snd].
  set (w2 := set_listeners (listeners _ ++ _) _).
  assert (Hl : listeners w2
               = add_controls (document w) (next_obj w) (listeners w)
                 ++ [mkListener (OnObject (mv_id mv)) "click" map_click]).
  { subst w2. destruct w as [m0 ds0 dr0 ps0 as0 ae0 mk0 cl0 doc tl0 ls0 n0 c0]; cbn.
    by destruct (truthy (node_of doc "traffic-toggle")). }
  assert (Hn : node_listeners w2
               = add_controls (document w) (next_obj w) (node_listeners w)).
  { unfold node_listeners. rewrite Hl, List.filter_app, filter_add_controls.
    cbn. by rewrite app_nil_r. }
  rewrite Hl, Hn.
  split; [reflexivity|]. split; [reflexivity|].
  split; [etrans; [apply add_controls_prefix|by eexists]|].
  split; [reflexivity|].
  split.
  { intros Hnone. rewrite Hnone.
    by rewrite (add_controls_fresh _ _ [] eq_refl). }
  subst w2. destruct w as [m0 ds0 dr0 ps0 as0 ae0 mk0 cl0 doc tl0 ls0 n0 c0]; cbn in *.
  destruct (truthy (node_of doc "traffic-toggle")); cbn; repeat split; assumption.
Qed.

Lemma setupEventListeners_with_view_witness :
  map page0 = Some view0
  /\ length (node_listeners page0) = 6
  /\ (setupEventListeners page0).1 = Ok tt
  /\ length (node_listeners (setupEventListeners page0).2) = 8.
Proof.
  assert (Hm : map page0 = Some view0) by (vm_compute; reflexivity).
  destruct (setupEventListeners_with_view page0 view0 Hm) as (H1 & _ & _ & H3 & _).
  cbv zeta in H3.
  split; [exact Hm|]. split; [vm_compute; reflexivity|]. split; [exact H1|].
  rewrite H3. vm_compute. reflexivity.
Defined.

(** *** [setupAutocomplete] on its own *)

(** X3. [setupAutocomplete] with the view in place returns normally from
    any state: for an input that is present the module variable is replaced
    by a new autocomplete on that input, its bounds bound to the view, with
    its [place_changed] listener appended, start before end; for an input
    that is absent the module variable keeps what it held; no listener on a
    node and nothing else changes.  With neither input in the document it
    returns without any change, view or not. *)
Theorem setupAutocomplete_outcomes (w : World) :
  (forall mv, map w = Some mv ->
     let s := truthy (node_of (document w) "start-location") in
     let e := truthy (node_of (document w) "end-location") in
     let start_id := next_obj w in
     let end_id := bump s (next_obj w) in
     let r := setupAutocomplete w in
     r.1 = Ok tt
     /\ autocompleteStart r.2 =
          (if s then Some {| ac_id := start_id; ac_input := Some "start-location";
                             ac_bindings := [("bounds", Some (mv_id mv))];
                             ac_place := None |}
           else autocompleteStart w)
     /\ autocompleteEnd r.2 =
          (if e then Some {| ac_id := end_id; ac_input := Some "end-location";
                             ac_bindings := [("bounds", Some (mv_id mv))];
                             ac_place := None |}
           else autocompleteEnd w)
     /\ listeners r.2 =
          snoc_if e (mkListener (OnObject end_id) "place_changed" end_place_changed)
            (snoc_if s (mkListener (OnObject start_id) "place_changed"
                          start_place_changed)
               (listeners w))
     /\ node_listeners r.2 = node_listeners w
     /\ next_obj r.2 = bump e end_id
     /\ map r.2 = map w /\ directionsRenderer r.2 = directionsRenderer w
     /\ markers r.2 = markers w /\ trafficLayers r.2 = trafficLayers w
     /\ document r.2 = document w /\ calls r.2 = calls w)
  /\ (document w !! "start-location" = None ->
      document w !! "end-location" = None ->
      setupAutocomplete w = (Ok tt, w)).
Proof.
  split.
  - intros mv Hm. cbn zeta.
    destruct w as [m0 ds0 dr0 ps0 as0 ae0 mk0 cl0 doc tl0 ls0 n0 c0].
    cbn in Hm. subst m0. destruct mv.
    unfold node_listeners, snoc_if, bump. run_script.
    destruct (doc !! "start-location"), (doc !! "end-location").
    all: rewrite ?List.filter_app; cbn [List.filter on_node l_target app];
      rewrite ?app_nil_r; repeat split; reflexivity.
  - intros Hs He. destruct w as [m0 ds0 dr0 ps0 as0 ae0 mk0 cl0 doc tl0 ls0 n0 c0].
    cbn in Hs, He. run_script. rewrite Hs, He. reflexivity.
Qed.

Lemma setupAutocomplete_outcomes_witness :
  map page0 = Some view0
  /\ (setupAutocomplete page0).1 = Ok tt
  /\ (ac_id <$> autocompleteStart (setupAutocomplete page0).2) = Some (next_obj page0)
  /\ (initial_world doc_sparse).(document) !! "end-location" = None
  /\ setupAutocomplete (initial_world ∅) = (Ok tt, initial_world ∅).
Proof.
  assert (Hm : map page0 = Some view0) by (vm_compute; reflexivity).
  destruct (proj1 (setupAutocomplete_outcomes page0) view0 Hm) as (H1 & H2 & _).
  cbv zeta in H2.
  split; [exact Hm|]. split; [exact H1|].
  split; [rewrite H2; vm_compute; reflexivity|].
  split; [vm_compute; reflexivity|].
  exact (proj2 (setupAutocomplete_outcomes (initial_world ∅)) eq_refl eq_refl).
Defined.

(** *** The listeners of the two controls that are whole in the source *)

Lemma traffic_change_run (trafficLayer : ObjId) (box : Element) (w : World) :
  run_handler (traffic_change trafficLayer) (DomEvent box) w =
    (Ok tt,
     set_trafficLayers (<[trafficLayer := traffic_target box w]> (trafficLayers w)) w).
Proof.
  destruct w, box as [v [|]]; reflexivity.
Qed.

Lemma traffic_changes_shape (trafficLayer : ObjId) (boxes : list Element) (w : World) :
  exists tl,
    traffic_changes trafficLayer boxes w = set_trafficLayers tl w
    /\ <[trafficLayer := None]> tl = <[trafficLayer := None]> (trafficLayers w).
Proof.
  revert w. induction boxes as [|box boxes IH]; intros w.
  - exists (trafficLayers w). split; [by destruct w|reflexivity].
  - change (traffic_changes trafficLayer (box :: boxes) w)
      with (traffic_changes trafficLayer boxes
              (run_handler (traffic_change trafficLayer) (DomEvent box) w).2).
    rewrite traffic_change_run. cbn [snd].
    destruct (IH (set_trafficLayers
                    (<[trafficLayer := traffic_target box w]> (trafficLayers w)) w))
      as (tl & Heq & Htl).
    exists tl. split.
    + rewrite Heq. by destruct w.
    + rewrite Htl. destruct w; cbn. by rewrite insert_insert_eq.
Qed.

(** X4. The traffic listener never throws, and over any run of change
    events only the last one counts: the layer ends on the view if the box
    was checked at the last event and on no map otherwise, whatever came
    before; other layers and the rest of the world are untouched.  (On a
    page without a view the target is none either way.) *)
Theorem traffic_changes_last_wins (trafficLayer : ObjId) (boxes : list Element)
    (last : Element) (w : World) :
  (forall box w0, (run_handler (traffic_change trafficLayer) (DomEvent box) w0).1 = Ok tt)
  /\ traffic_changes trafficLayer (boxes ++ [last]) w =
       set_trafficLayers
         (<[trafficLayer := traffic_target last w]> (trafficLayers w)) w
  /\ (forall other, other <> trafficLayer ->
        trafficLayers (traffic_changes trafficLayer (boxes ++ [last]) w) !! other
        = trafficLayers w !! other).
Proof.
  assert (Hrun : traffic_changes trafficLayer (boxes ++ [last]) w =
            set_trafficLayers
              (<[trafficLayer := traffic_target last w]> (trafficLayers w)) w).
  { unfold traffic_changes. rewrite foldl_app. cbn [foldl].
    fold (traffic_changes trafficLayer boxes w).
    destruct (traffic_changes_shape trafficLayer boxes w) as (tl & -> & Htl).
    rewrite traffic_change_run. cbn [snd].
    assert (Hins : forall x, <[trafficLayer := x]> tl
                             = <[trafficLayer := x]> (trafficLayers w)).
    { intros x. rewrite <- (insert_insert_eq tl trafficLayer x None).
      rewrite Htl. by rewrite insert_insert_eq. }
    destruct w, last as [v [|]]; cbn in *; unfold traffic_target; cbn;
      by rewrite Hins. }
  split; [intros box w0; by rewrite traffic_change_run|].
  split; [exact Hrun|].
  intros other Hne. rewrite Hrun. destruct w; cbn. by rewrite lookup_insert_ne.
Qed.

Lemma mapType_change_run (sel : Element) (w : World) (mv : MapView) :
  map w = Some mv ->
  run_handler mapType_change (DomEvent sel) w
    = (Ok tt, set_map (Some (with_mapTypeId (value sel) mv)) w).
Proof. intros Hm. destruct w; cbn in *; subst; reflexivity. Qed.

Lemma mapType_changes_shape (selects : list Element) (w : World) (mv : MapView) :
  map w = Some mv ->
  mapType_changes selects w = w
  \/ exists v, mapType_changes selects w = set_map (Some (with_mapTypeId v mv)) w.
Proof.
  revert w mv. induction selects as [|sel selects IH]; intros w mv Hm; [by left|].
  change (mapType_changes (sel :: selects) w)
    with (mapType_changes selects (run_handler mapType_change (DomEvent sel) w).2).
  rewrite (mapType_change_run sel w mv Hm). cbn [snd].
  destruct (IH (set_map (Some (with_mapTypeId (value sel) mv)) w)
              (with_mapTypeId (value sel) mv)) as [-> | (v & ->)].
  - by destruct w.
  - right. by exists (value sel).
  - right. exists v. by destruct w.
Qed.

(** X5. Over any run of change events on the map-type selector only the
    last one counts: on a page with a view, the view's map type is the last
    selected value and its identity, container, center, zoom and controls
    are those it had before the run; the rest of the world is untouched. *)
Theorem mapType_changes_last_wins (selects : list Element) (last : Element)
    (w : World) (mv : MapView) :
  map w = Some mv ->
  mapType_changes (selects ++ [last]) w
    = set_map (Some (with_mapTypeId (value last) mv)) w.
Proof.
  intros Hm. unfold mapType_changes. rewrite foldl_app. cbn [foldl].
  fold (mapType_changes selects w).
  destruct (mapType_changes_shape selects w mv Hm) as [-> | (v & ->)].
  - destruct w, mv; cbn in *; subst; reflexivity.
  - destruct w, mv; cbn in *; subst; reflexivity.
Qed.

Lemma mapType_changes_last_wins_witness :
  map page0 = Some view0
  /\ (mapTypeId <$> map (mapType_changes [satellite_chosen; plain; satellite_chosen] page0))
     = Some (Some "satellite").
Proof.
  assert (Hm : map page0 = Some view0) by (vm_compute; reflexivity).
  split; [exact Hm|].
  change [satellite_chosen; plain; satellite_chosen]
    with ([satellite_chosen; plain] ++ [satellite_chosen]).
  rewrite (mapType_changes_last_wins [satellite_chosen; plain] satellite_chosen
             page0 view0 Hm).
  destruct page0; reflexivity.
Defined.

(** X6. The two controls do not interfere: a map-type change followed by a
    traffic change leaves the same world as the traffic change followed by
    the map-type change, on any page (on a page without a view the map-type
    listener throws in either order and the traffic change is applied all
    the same). *)
Theorem mapType_and_traffic_commute (trafficLayer : ObjId) (sel box : Element)
    (w : World) :
  (run_handler (traffic_change trafficLayer) (DomEvent box)
     (run_handler mapType_change (DomEvent sel) w).2).2
  = (run_handler mapType_change (DomEvent sel)
       (run_handler (traffic_change trafficLayer) (DomEvent box) w).2).2.
Proof.
  destruct w as [[mv|] ds0 dr0 ps0 as0 ae0 mk0 cl0 doc tl0 ls0 n0 c0],
    box as [v [|]]; reflexivity.
Qed.

(** *** The start listener without a view or without a place *)

(** X7. The start listener fails without side effect when something it
    reads is missing: with no autocomplete in the module variable, with no
    place stored in it, or with a place that has geometry while the view
    does not exist, it throws a TypeError and leaves the world, the marker
    sequence included, as it was (the pan comes before the marker). *)
Theorem start_place_changed_failures (w : World) :
  (autocompleteStart w = None ->
   run_handler start_place_changed Notification w
     = (Throw (TypeError "autocomplete is undefined"), w))
  /\ (forall a, autocompleteStart w = Some a -> ac_place a = None ->
        run_handler start_place_changed Notification w
          = (Throw (TypeError "place is undefined"), w))
  /\ (forall a p g, autocompleteStart w = Some a -> ac_place a = Some p ->
        geometry p = Some g -> map w = None ->
        run_handler start_place_changed Notification w
          = (Throw (TypeError "map is undefined"), w)).
Proof.
  split; [|split].
  - intros Ha. destruct w; cbn in *; subst; reflexivity.
  - intros a Ha Hp. destruct w, a; cbn in *; subst; reflexivity.
  - intros a p g Ha Hp Hg Hm. destruct w, a, p; cbn in *; subst; reflexivity.
Qed.

Lemma start_place_changed_failures_witness :
  autocompleteStart (initial_world doc_full) = None
  /\ run_handler start_place_changed Notification (initial_world doc_full)
     = (Throw (TypeError "autocomplete is undefined"), initial_world doc_full)
  /\ ac_place (start_with ferry_building) = Some ferry_building
  /\ run_handler start_place_changed Notification
       (set_autocompleteStart (Some (start_with ferry_building))
          (initial_world doc_full))
     = (Throw (TypeError "map is undefined"),
        set_autocompleteStart (Some (start_with ferry_building))
          (initial_world doc_full)).
Proof.
  split; [reflexivity|].
  split; [exact (proj1 (start_place_changed_failures (initial_world doc_full)) eq_refl)|].
  split; [reflexivity|].
  exact (proj2 (proj2 (start_place_changed_failures
                         (set_autocompleteStart (Some (start_with ferry_building))
                            (initial_world doc_full))))
           _ _ _ eq_refl eq_refl eq_refl eq_refl).
Defined.

(** *** [initMap] from any state *)


Lemma listeners_after_initMap_any (w : World) :
  listeners (after_initMap_any w) =
    (add_controls (document w)
       (bump (truthy (node_of (document w) "end-location"))
          (bump (truthy (node_of (document w) "start-location")) (4 + next_obj w)))
       (snoc_if (truthy (node_of (document w) "end-location"))
          (mkListener
             (OnObject (bump (truthy (node_of (document w) "start-location"))
                          (4 + next_obj w)))
             "place_changed" end_place_changed)
          (snoc_if (truthy (node_of (document w) "start-location"))
             (mkListener (OnObject (4 + next_obj w)) "place_changed"
                start_place_changed)
             (listeners w)))
     ++ [mkListener (OnObject (next_obj w)) "click" map_click])
    ++ [mkListener (OnObject (2 + next_obj w)) "directions_changed" directions_changed].
Proof. reflexivity. Qed.

Lemma node_listeners_after_initMap_any (w : World) :
  node_listeners (after_initMap_any w) =
    add_controls (document w)
      (bump (truthy (node_of (document w) "end-location"))
         (bump (truthy (node_of (document w) "start-location")) (4 + next_obj w)))
      (node_listeners w).
Proof.
  unfold node_listeners. rewrite listeners_after_initMap_any.
  rewrite !List.filter_app, filter_add_controls. cbn [List.filter on_node l_target].
  rewrite !app_nil_r. f_equal. unfold snoc_if.
  destruct (truthy (node_of (document w) "start-location")),
    (truthy (node_of (document w) "end-location"));
    rewrite ?List.filter_app; cbn; by rewrite ?app_nil_r.
Qed.

Lemma listeners_kept_after_initMap_any (w : World) :
  listeners w `prefix_of` listeners (after_initMap_any w).
Proof.
  rewrite listeners_after_initMap_any.
  etrans; [|by eexists]. etrans; [|by eexists].
  etrans; [|apply add_controls_prefix]. unfold snoc_if.
  destruct (truthy (node_of (document w) "start-location")),
    (truthy (node_of (document w) "end-location")).
  - etrans; by eexists.
  - by eexists.
  - by eexists.
  - reflexivity.
Qed.



Lemma view_click_after_initMap_any (w : World) :
  In (mkListener (OnObject (next_obj w)) "click" map_click)
     (listeners (after_initMap_any w)).
Proof.
  rewrite listeners_after_initMap_any, !List.in_app_iff. cbn. intuition.
Qed.

(** X9. [initMap] is not idempotent.  Run twice on a freshly loaded page it
    leaves the selector and the checkbox with two listeners each, the two
    traffic listeners closing over two different layers, while every button
    keeps its one listener, the named function not being registered twice;
    [map] refers to a second view and the click listener on the first view
    stays registered. *)
Theorem initMap_twice (mapDivOk : option Node -> bool)
    (doc : gmap string Element) :
  mapDivOk (node_of doc "map") = true ->
  let w1 := (initMap mapDivOk (initial_world doc)).2 in
  let r2 := initMap mapDivOk w1 in
  r2.1 = Ok tt
  /\ (exists layer1 layer2,
        layer1 < layer2
        /\ node_listeners r2.2 =
             control_listeners doc layer1
             ++ guarded_listener doc "map-type" "change" mapType_change
             ++ guarded_listener doc "traffic-toggle" "change" (traffic_change layer2))
  /\ (exists first second,
        (mv_id <$> map w1) = Some first /\ (mv_id <$> map r2.2) = Some second
        /\ first < second
        /\ In (mkListener (OnObject first) "click" map_click) (listeners r2.2)
        /\ In (mkListener (OnObject second) "click" map_click) (listeners r2.2)).
Proof.
  intros Hok. cbn zeta.
  rewrite (initMap_closed_form mapDivOk doc Hok). cbn [snd].
  assert (Hok2 : mapDivOk (node_of (document (after_initMap (initial_world doc))) "map")
                 = true) by exact Hok.
  rewrite (initMap_closed_form_any mapDivOk _ Hok2). cbn [fst snd].
  split; [reflexivity|]. split.
  - do 2 eexists. split; cycle 1.
    + rewrite node_listeners_after_initMap_any, node_listeners_after_initMap.
      apply add_controls_again.
    + cbn.
      destruct (truthy (node_of doc "start-location")),
        (truthy (node_of doc "end-location")),
        (truthy (node_of doc "traffic-toggle")); cbn; lia.
  - exists 0, (next_obj (after_initMap (initial_world doc))).
    split; [reflexivity|]. split; [reflexivity|]. split.
    + cbn.
      destruct (truthy (node_of doc "start-location")),
        (truthy (node_of doc "end-location")),
        (truthy (node_of doc "traffic-toggle")); cbn; lia.
    + split; [|apply view_click_after_initMap_any].
      apply list_elem_of_In.
      eapply elem_of_prefix; [|apply listeners_kept_after_initMap_any].
      apply list_elem_of_In. unfold after_initMap.
      cbn [listeners initial_world next_obj app]. rewrite !List.in_app_iff.
      cbn. intuition.
Qed.

Lemma initMap_twice_witness :
  strict_provider (node_of doc_sparse "map") = true
  /\ length (node_listeners (initMap strict_provider (initial_world doc_sparse)).2) = 3
  /\ (initMap strict_provider
        (initMap strict_provider (initial_world doc_sparse)).2).1 = Ok tt
  /\ length (node_listeners
               (initMap strict_provider
                  (initMap strict_provider (initial_world doc_sparse)).2).2) = 4.
Proof.
  assert (Hok : strict_provider (node_of doc_sparse "map") = true)
    by (vm_compute; reflexivity).
  destruct (initMap_twice strict_provider doc_sparse Hok)
    as (H1 & (l1 & l2 & _ & H2) & _).
  split; [exact Hok|]. split; [vm_compute; reflexivity|]. split; [exact H1|].
  cbv zeta in H2. rewrite H2. vm_compute. reflexivity.
Defined.

Lemma traffic_changes_last_wins_witness :
  trafficLayers (traffic_changes 6 ([box_checked; box_unchecked] ++ [box_checked]) page0)
    !! 6 = Some (Some 0)
  /\ trafficLayers (traffic_changes 6 ([box_checked; box_unchecked] ++ [box_checked]) page0)
       !! 7 = trafficLayers page0 !! 7.
Proof.
  destruct (traffic_changes_last_wins 6 [box_checked; box_unchecked] box_checked page0)
    as (_ & H2 & H3).
  split; [|apply H3; discriminate].
  rewrite H2. vm_compute. reflexivity.
Defined.

(** *** The page right after its first initialization *)

(** X10. After the first initialization every listener on a provider object
    sits on the object the matching module variable holds: the click
    listener on the view in [map], the [directions_changed] listener on the
    renderer in [directionsRenderer], each [place_changed] listener on the
    autocomplete in its variable.  (The listeners read these variables, not
    the object that notifies them.) *)
Theorem initMap_listeners_match_variables (mapDivOk : option Node -> bool)
    (doc : gmap string Element) (l : Listener) (o : ObjId) :
  mapDivOk (node_of doc "map") = true ->
  let w := (initMap mapDivOk (initial_world doc)).2 in
  In l (listeners w) -> l_target l = OnObject o ->
  (l_handler l = map_click /\ l_event l = "click" /\ (mv_id <$> map w) = Some o)
  \/ (l_handler l = directions_changed /\ l_event l = "directions_changed"
      /\ (dr_id <$> directionsRenderer w) = Some o)
  \/ (l_handler l = start_place_changed /\ l_event l = "place_changed"
      /\ (ac_id <$> autocompleteStart w) = Some o)
  \/ (l_handler l = end_place_changed /\ l_event l = "place_changed"
      /\ (ac_id <$> autocompleteEnd w) = Some o).
Proof.
  intros Hok. cbn zeta.
  rewrite (initMap_closed_form mapDivOk doc Hok). cbn [snd].
  unfold after_initMap.
  cbn [listeners map directionsRenderer autocompleteStart autocompleteEnd
       initial_world next_obj document app].
  intros Hin Ht. rewrite !List.in_app_iff in Hin.
  destruct Hin as [Hin|[Hin|[Hin|[Hin|[Hin|[Hin|[Hin|[Hin|Hin]]]]]]]].
  - destruct (truthy (node_of doc "start-location")); [|destruct Hin].
    destruct Hin as [<-|[]]. cbn in Ht. injection Ht as <-. auto 10.
  - destruct (truthy (node_of doc "end-location")); [|destruct Hin].
    destruct Hin as [<-|[]]. cbn in Ht. injection Ht as <-. auto 10.
  - apply In_guarded_listener in Hin. destruct Hin as [-> _]. discriminate Ht.
  - apply In_guarded_listener in Hin. destruct Hin as [-> _]. discriminate Ht.
  - apply In_guarded_listener in Hin. destruct Hin as [-> _]. discriminate Ht.
  - apply In_guarded_listener in Hin. destruct Hin as [-> _]. discriminate Ht.
  - apply In_guarded_listener in Hin. destruct Hin as [-> _]. discriminate Ht.
  - apply In_guarded_listener in Hin. destruct Hin as [-> _]. discriminate Ht.
  - destruct Hin as [<-|[<-|[]]]; cbn in Ht; injection Ht as <-; auto 10.
Qed.

Lemma initMap_listeners_match_variables_witness :
  strict_provider (node_of doc_full "map") = true
  /\ In (mkListener (OnObject 5) "place_changed" end_place_changed) (listeners page0)
  /\ (ac_id <$> autocompleteEnd page0) = Some 5.
Proof.
  assert (Hok : strict_provider (node_of doc_full "map") = true)
    by (vm_compute; reflexivity).
  assert (Hin : In (mkListener (OnObject 5) "place_changed" end_place_changed)
                   (listeners page0))
    by (vm_compute; repeat (first [left; reflexivity | right])).
  split; [exact Hok|]. split; [exact Hin|].
  destruct (initMap_listeners_match_variables strict_provider doc_full _ 5 Hok
              Hin eq_refl)
    as [(H & _)|[(H & _)|[(H & _)|(_ & _ & H)]]]; try discriminate H.
  exact H.
Defined.

(** X11. Initialization does not read the state of the controls.  Whatever
    the document says about the checkbox (checked or not) and the selector
    (its value), after [initMap] on a freshly loaded page every traffic
    layer is shown on no map and the view's map type is not set: a box that
    is checked from the start shows no traffic until its next change
    event. *)
Theorem initMap_ignores_control_state (mapDivOk : option Node -> bool)
    (doc : gmap string Element) :
  mapDivOk (node_of doc "map") = true ->
  let w := (initMap mapDivOk (initial_world doc)).2 in
  (forall layer target, trafficLayers w !! layer = Some target -> target = None)
  /\ (is_Some (doc !! "traffic-toggle") ->
      exists layer, trafficLayers w !! layer = Some None
                    /\ In (mkListener (OnNode "traffic-toggle") "change"
                             (traffic_change layer)) (listeners w))
  /\ (mapTypeId <$> map w) = Some None.
Proof.
  intros Hok. cbn zeta.
  rewrite (initMap_closed_form mapDivOk doc Hok). cbn [snd].
  unfold after_initMap, guarded_listener, node_of.
  cbn [trafficLayers map initial_world document next_obj listeners].
  split; [|split; [|reflexivity]].
  - intros layer target.
    destruct (doc !! "traffic-toggle"); cbn [truthy].
    + rewrite lookup_insert. case_decide; [congruence|by rewrite lookup_empty].
    + by rewrite lookup_empty.
  - intros [el Hel]. rewrite Hel. cbn [truthy]. eexists. split.
    + apply lookup_insert_eq.
    + rewrite !List.in_app_iff. cbn. intuition.
Qed.

Lemma initMap_ignores_control_state_witness :
  strict_provider (node_of (<["traffic-toggle" := box_checked]> doc_full) "map") = true
  /\ (checked <$> (<["traffic-toggle" := box_checked]> doc_full) !! "traffic-toggle")
     = Some true
  /\ trafficLayers
       (initMap strict_provider
          (initial_world (<["traffic-toggle" := box_checked]> doc_full))).2 !! 6
     = Some None.
Proof.
  assert (Hok : strict_provider
                  (node_of (<["traffic-toggle" := box_checked]> doc_full) "map") = true)
    by (vm_compute; reflexivity).
  assert (Hl : is_Some (trafficLayers
                 (initMap strict_provider
                    (initial_world (<["traffic-toggle" := box_checked]> doc_full))).2
                 !! 6)) by (vm_compute; eauto).
  destruct (initMap_ignores_control_state strict_provider _ Hok) as (H1 & _).
  cbv zeta in H1. destruct Hl as [target Ht].
  split; [exact Hok|]. split; [vm_compute; reflexivity|].
  rewrite Ht. f_equal. exact (H1 _ _ Ht).
Defined.
